(** * Skill persistence and skill execution of the M365 MCP server

    A shallow embedding of [skills-storage.ts] (class [SkillStorage]),
    [builtin-skills.ts] ([BUILTIN_SKILLS], [loadBuiltinSkills]), the
    entry point of [code-execution.ts] ([executeM365Code]), the
    handlers of [skill-tools.ts] that create, update, execute and
    delete a skill, and the handler [execute-m365-code] of
    [graph-tools.ts], followed by the properties established for them.

    Conventions of the embedding.
    - A JavaScript object typed [Partial<M365Skill>] or [M365Skill] is a
      record whose fields are all optional: the cast [skill as M365Skill]
      is a no-op at run time.
    - The skills directory is a finite map from the identifier [k] of the
      file [k.json] to the document parsed from it; files of another
      name or that do not parse, which [list] skips, are left out, and
      the file system does not fail ([init] has created the directory).
    - [new Date()] and [randomUUID()] read an environment that is part of
      the state: the n-th reading of the clock and the n-th draw of
      random bits. A time stamp is the number of milliseconds that
      [toISOString] prints.
    - The objects of the array [BUILTIN_SKILLS] are part of the state,
      because [save] assigns to the fields of the object it is given.
    - A counter is an integer-valued double, written as the integer it
      is: [usageCount++] rounds as double arithmetic does, so that it is
      exact below 2^53 and leaves 2^53 as it is. *)

From stdpp Require Import base strings list gmap sorting.
From Stdlib Require Import ZArith Lia Ascii Sorting.Sorted.

Local Open Scope Z_scope.

(** ** JavaScript values used by the storage layer *)

(** The content of a numeric field such as [usageCount]: the key may be
    absent, hold [null] (what [JSON.stringify] writes for [NaN]), hold
    [NaN] in memory, or hold a number, which is whole, as every counter
    is that the code itself writes. *)
Inductive JsNumber :=
  | Undefined
  | Null
  | NaN
  | Num (n : Z).

#[global] Instance JsNumber_eq_dec : EqDecision JsNumber.
Proof. solve_decision. Defined.

(** [ToNumber]; [None] stands for [NaN]. *)
Definition toNumber (v : JsNumber) : option Z :=
  match v with
  | Undefined => None
  | Null => Some 0
  | NaN => None
  | Num n => Some n
  end.

Definition ofNumber (o : option Z) : JsNumber :=
  match o with
  | Some n => Num n
  | None => NaN
  end.

(** The double nearest to the integer [m], ties going to the even
    significand. Every integer up to 2^53 in absolute value is a double;
    beyond, a double keeps 53 significant bits. *)
Definition round_double (m : Z) : Z :=
  let a := Z.abs m in
  if a <=? 2 ^ 53 then m
  else
    let ulp := 2 ^ (Z.log2 a - 52) in
    let q := a / ulp in
    let r := a mod ulp in
    let q' :=
      if 2 * r <? ulp then q
      else if ulp <? 2 * r then q + 1
      else if Z.even q then q else q + 1 in
    Z.sgn m * (q' * ulp).

(** [v++] and [v + 1] give [ToNumber(v) + 1], a double. *)
Definition js_incr (v : JsNumber) : JsNumber :=
  ofNumber ((fun n => round_double (n + 1)) <$> toNumber v).

(** [b - a] on two numeric fields, as the exact difference: the
    comparator of [sort] is read through its sign, which rounding keeps. *)
Definition js_sub (b a : JsNumber) : option Z :=
  match toNumber b, toNumber a with
  | Some x, Some y => Some (x - y)
  | _, _ => None
  end.

(** [JSON.parse (JSON.stringify v)] on a numeric field. *)
Definition json_number (v : JsNumber) : JsNumber :=
  match v with
  | NaN => Null
  | _ => v
  end.

(** Truthiness of an optional string: [undefined] and [""] are falsy. *)
Definition truthy (s : option string) : bool :=
  match s with
  | Some (String _ _) => true
  | _ => false
  end.

(** [s.startsWith(p)] and [s.includes(p)]. *)
Fixpoint startsWith (s p : string) {struct p} : bool :=
  match p, s with
  | EmptyString, _ => true
  | String _ _, EmptyString => false
  | String a p', String b s' => bool_decide (a = b) && startsWith s' p'
  end.

Fixpoint includes (s p : string) : bool :=
  startsWith s p ||
  match s with
  | EmptyString => false
  | String _ s' => includes s' p
  end.

(** [p] occurs in [s] as a contiguous substring. *)
Definition substring_of (p s : string) : Prop :=
  ∃ l r, s = l +:+ p +:+ r.

(** ** Errors and results *)

Inductive JsError := Error (message : string).

Inductive Result (A : Type) :=
  | Ok (a : A)
  | Throw (e : JsError).
Arguments Ok {A} a.
Arguments Throw {A} e.

(** ** [SkillStorage.validateCode] *)

Record Validation := { valid : bool; errors : list string }.

Definition forbidden : list string :=
  [ "eval("; "Function("; "require("; "import(";
    "__dirname"; "__filename"; "process.exit"; "child_process" ].

Definition validateCode (code : string) : Validation :=
  let errors :=
    foldl (fun errors pattern =>
             if includes code pattern
             then errors ++ ["Forbidden pattern detected: " +:+ pattern]
             else errors)
          [] forbidden in
  {| valid := bool_decide (length errors = 0%nat); errors := errors |}.

(** ** The data model ([types/skill.ts]) *)

Inductive Category :=
  | mail | calendar | teams | files_ | sharepoint | planner | todo | general.

#[global] Instance Category_eq_dec : EqDecision Category.
Proof. solve_decision. Defined.

Definition category_name (c : Category) : string :=
  match c with
  | mail => "mail"
  | calendar => "calendar"
  | teams => "teams"
  | files_ => "files"
  | sharepoint => "sharepoint"
  | planner => "planner"
  | todo => "todo"
  | general => "general"
  end.

Inductive ParameterType := TString | TNumber | TBoolean | TObject | TArray.

#[global] Instance ParameterType_eq_dec : EqDecision ParameterType.
Proof. solve_decision. Defined.

Module SkillParameter.
(** [default] is kept as the JSON text of the value. *)
Record t := mk {
  type : ParameterType;
  description : string;
  required : bool;
  default : option string
}.
End SkillParameter.

#[global] Instance SkillParameter_eq_dec : EqDecision SkillParameter.t.
Proof. solve_decision. Defined.

(** Timestamps are what [toISOString] prints: a number of milliseconds. *)
Definition Timestamp := Z.

Module M365Skill.
Record t := mk {
  id : option string;
  name : option string;
  description : option string;
  category : option Category;
  code : option string;
  parameters : option (list (string * SkillParameter.t));
  returnType : option string;
  author : option string;
  tags : option (list string);
  createdAt : option Timestamp;
  updatedAt : option Timestamp;
  usageCount : JsNumber;
  isPublic : option bool;
  isBuiltin : option bool
}.

Definition set_id (v : option string) (s : t) : t :=
  mk v (name s) (description s) (category s) (code s) (parameters s)
     (returnType s) (author s) (tags s) (createdAt s) (updatedAt s)
     (usageCount s) (isPublic s) (isBuiltin s).

Definition set_createdAt (v : option Timestamp) (s : t) : t :=
  mk (id s) (name s) (description s) (category s) (code s) (parameters s)
     (returnType s) (author s) (tags s) v (updatedAt s)
     (usageCount s) (isPublic s) (isBuiltin s).

Definition set_updatedAt (v : option Timestamp) (s : t) : t :=
  mk (id s) (name s) (description s) (category s) (code s) (parameters s)
     (returnType s) (author s) (tags s) (createdAt s) v
     (usageCount s) (isPublic s) (isBuiltin s).

Definition set_usageCount (v : JsNumber) (s : t) : t :=
  mk (id s) (name s) (description s) (category s) (code s) (parameters s)
     (returnType s) (author s) (tags s) (createdAt s) (updatedAt s)
     v (isPublic s) (isBuiltin s).

Definition set_isBuiltin (v : option bool) (s : t) : t :=
  mk (id s) (name s) (description s) (category s) (code s) (parameters s)
     (returnType s) (author s) (tags s) (createdAt s) (updatedAt s)
     (usageCount s) (isPublic s) v.

(** The document read back from the file written by
    [JSON.stringify]: absent keys stay absent, [NaN] becomes [null]. *)
Definition json (s : t) : t := set_usageCount (json_number (usageCount s)) s.
End M365Skill.

Abbreviation M365Skill := M365Skill.t.

#[global] Instance M365Skill_eq_dec : EqDecision M365Skill.
Proof. solve_decision. Defined.

Module SkillFilters.
Record t := mk {
  category : option string;
  tags : option (list string);
  author : option string;
  isPublic : option bool;
  isBuiltin : option bool
}.
End SkillFilters.

Abbreviation SkillFilters := SkillFilters.t.

(** ** The environment: files, clock, random bits, module state *)

Record World := mkWorld {
  files : gmap string M365Skill;        (* [k] for the file [k.json] of skillsDir *)
  clock : nat → Timestamp;              (* the n-th reading of the system clock *)
  reads : nat;                          (* readings taken so far *)
  entropy : nat → N;                    (* the n-th draw of 128 random bits *)
  draws : nat;                          (* draws taken so far *)
  BUILTIN_SKILLS : list M365Skill       (* the objects of the catalogue array *)
}.

Definition set_files (m : gmap string M365Skill) (w : World) : World :=
  mkWorld m (clock w) (reads w) (entropy w) (draws w) (BUILTIN_SKILLS w).

Definition set_BUILTIN_SKILLS (l : list M365Skill) (w : World) : World :=
  mkWorld (files w) (clock w) (reads w) (entropy w) (draws w) l.

(** [Date.now()], also the instant of [new Date()]. *)
Definition Date_now (w : World) : Timestamp * World :=
  (clock w (reads w),
   mkWorld (files w) (clock w) (S (reads w)) (entropy w) (draws w) (BUILTIN_SKILLS w)).

Definition hexDigit (n : N) : ascii :=
  match (n mod 16)%N with
  | 0%N => "0" | 1%N => "1" | 2%N => "2" | 3%N => "3"
  | 4%N => "4" | 5%N => "5" | 6%N => "6" | 7%N => "7"
  | 8%N => "8" | 9%N => "9" | 10%N => "a" | 11%N => "b"
  | 12%N => "c" | 13%N => "d" | 14%N => "e" | _ => "f"
  end%char.

(** The [digits] low hexadecimal digits of [n], most significant first. *)
Fixpoint hex (digits : nat) (n : N) : string :=
  match digits with
  | O => ""
  | S d => hex d (n / 16)%N +:+ String (hexDigit n) ""
  end.

(** The text of a version-4 UUID built from 128 random bits, as
    [crypto.randomUUID] prints it: version nibble 4, variant bits 10. *)
Definition uuid_text (bits : N) : string :=
  (hex 8 (bits / 2 ^ 96) +:+ "-" +:+
   hex 4 (bits / 2 ^ 80) +:+ "-" +:+
   hex 4 (16384 + (bits / 2 ^ 64) mod 4096) +:+ "-" +:+
   hex 4 (32768 + (bits / 2 ^ 48) mod 16384) +:+ "-" +:+
   hex 12 bits)%N.

Definition randomUUID (w : World) : string * World :=
  (uuid_text (entropy w (draws w)),
   mkWorld (files w) (clock w) (reads w) (entropy w) (S (draws w)) (BUILTIN_SKILLS w)).

(** [Array.prototype.sort]: stable; the comparator says whether its
    first argument goes after its second (a positive result; [NaN]
    counts as zero). Where the comparator orders the elements, every
    stable sort gives the list computed here, by insertion from the
    right. Where it does not (a counter that is no number) the order is
    the engine's own; the list computed here is then read only on an
    input the engine leaves as it is, no comparison of two neighbours
    being negative. *)
Fixpoint insert_sorted {A} (after : A → A → bool) (x : A) (l : list A) : list A :=
  match l with
  | [] => [x]
  | y :: l' => if after x y then y :: insert_sorted after x l' else x :: l
  end.

Fixpoint Array_sort {A} (after : A → A → bool) (l : list A) : list A :=
  match l with
  | [] => []
  | x :: l' => insert_sorted after x (Array_sort after l')
  end.

(** ** [class SkillStorage] *)

Module SkillStorage.

Definition missing_fields : string :=
  "Missing required skill fields: name, description, code, category".

(** [`${fullSkill.id}`] *)
Definition file_key (skill : M365Skill) : string :=
  default "undefined" (M365Skill.id skill).

(** [save] mutates the object it is given; the first component is
    that object after the call, whether or not the call throws. *)
Definition save (skill : M365Skill) (w : World)
  : M365Skill * Result M365Skill * World :=
  let '(skill, w) :=
    if negb (truthy (M365Skill.id skill)) then
      let '(uuid, w) := randomUUID w in
      let skill := M365Skill.set_id (Some uuid) skill in
      let '(now, w) := Date_now w in
      let skill := M365Skill.set_createdAt (Some now) skill in
      let skill := M365Skill.set_usageCount (Num 0) skill in
      let skill :=
        match M365Skill.isBuiltin skill with
        | None => M365Skill.set_isBuiltin (Some false) skill
        | Some _ => skill
        end in
      (skill, w)
    else (skill, w) in
  let '(now, w) := Date_now w in
  let skill := M365Skill.set_updatedAt (Some now) skill in
  if negb (truthy (M365Skill.name skill))
     || negb (truthy (M365Skill.description skill))
     || negb (truthy (M365Skill.code skill))
     || negb (bool_decide (is_Some (M365Skill.category skill)))
  then (skill, Throw (Error missing_fields), w)
  else
    let fullSkill := skill in
    (skill, Ok fullSkill,
     set_files (<[file_key fullSkill := M365Skill.json fullSkill]> (files w)) w).

Definition get (id : string) (w : World) : option M365Skill :=
  files w !! id.

(** [fs.readdir] followed by reading and parsing each file; the
    order of the entries is the file system's. *)
Definition readdir (w : World) : list M365Skill :=
  (map_to_list (files w)).*2.

(** The body of the loop of [list]: [false] is [continue], [true]
    reaches [skills.push(skill)]. *)
Definition keeps (filters : option SkillFilters) (skill : M365Skill) : bool :=
  match filters with
  | None => true
  | Some f =>
    if truthy (SkillFilters.category f)
       && bool_decide (category_name <$> M365Skill.category skill
                       ≠ SkillFilters.category f)
    then false
    else if truthy (SkillFilters.author f)
            && bool_decide (M365Skill.author skill ≠ SkillFilters.author f)
    then false
    else if bool_decide (SkillFilters.isPublic f ≠ None)
            && bool_decide (M365Skill.isPublic skill ≠ SkillFilters.isPublic f)
    then false
    else if match SkillFilters.isBuiltin f with
            | Some wanted =>
                let skillIsBuiltin :=
                  bool_decide (M365Skill.isBuiltin skill = Some true) in
                bool_decide (skillIsBuiltin ≠ wanted)
            | None => false
            end
    then false
    else if match SkillFilters.tags f with
            | Some ftags =>
                negb (existsb
                        (fun tag =>
                           match M365Skill.tags skill with
                           | Some stags => bool_decide (tag ∈ stags)
                           | None => false
                           end)
                        ftags)
            | None => false
            end
    then false
    else true
  end.

(** [(a, b) => b.usageCount - a.usageCount] is positive. *)
Definition less_used (a b : M365Skill) : bool :=
  match js_sub (M365Skill.usageCount b) (M365Skill.usageCount a) with
  | Some d => bool_decide (0 < d)
  | None => false
  end.

Definition list (filters : option SkillFilters) (w : World)
  : Datatypes.list M365Skill :=
  Array_sort less_used (List.filter (keeps filters) (readdir w)).

Definition getByName (name : string) (w : World) : option M365Skill :=
  List.find (fun s => bool_decide (M365Skill.name s = Some name)) (list None w).

Definition delete (id : string) (w : World) : bool * World :=
  match files w !! id with
  | Some _ => (true, set_files (base.delete id (files w)) w)
  | None => (false, w)
  end.

Definition incrementUsage (id : string) (w : World) : Result unit * World :=
  match get id w with
  | Some skill =>
      let skill :=
        M365Skill.set_usageCount (js_incr (M365Skill.usageCount skill)) skill in
      let '(_, r, w) := save skill w in
      (match r with Ok _ => Ok tt | Throw e => Throw e end, w)
  | None => (Ok tt, w)
  end.

End SkillStorage.

(** ** The built-in catalogue ([builtin-skills.ts]) *)

Definition dq : string := String "034"%char "".

Definition summarizeTodaysEmails : M365Skill :=
M365Skill.mk
  None
  (Some "summarizeTodaysEmails")
  (Some "Get a comprehensive summary of today's emails including count, unread count, urgent emails, and top senders")
  (Some mail)
  (Some ("
      const today = new Date();
      today.setHours(0, 0, 0, 0);
      const todayISO = today.toISOString();

      const tomorrow = new Date(today);
      tomorrow.setDate(tomorrow.getDate() + 1);
      const tomorrowISO = tomorrow.toISOString();

      const messages = await m365.mail.list({
        filter: `receivedDateTime ge ${todayISO} and receivedDateTime lt ${tomorrowISO}`,
        select: 'from,subject,importance,isRead,hasAttachments',
        top: 100
      });

      const bySender = {};
      let unreadCount = 0;
      let urgentCount = 0;

      for (const msg of messages.value) {
        const sender = msg.from.emailAddress.address;
        if (!bySender[sender]) {
          bySender[sender] = { count: 0, unread: 0, urgent: 0 };
        }
        bySender[sender].count++;
        if (!msg.isRead) {
          bySender[sender].unread++;
          unreadCount++;
        }
        if (msg.importance === 'high') {
          bySender[sender].urgent++;
          urgentCount++;
        }
      }

      const topSenders = Object.entries(bySender)
        .sort((a, b) => b[1].count - a[1].count)
        .slice(0, 5)
        .map(([email, stats]) => ({ email, ...stats }));

      return {
        date: today.toISOString().split('T')[0],
        total: messages.value.length,
        unread: unreadCount,
        urgent: urgentCount,
        topSenders
      };
    "))
  None None None
  (Some ["email"; "summary"; "daily"; "report"])
  None None Undefined
  (Some true)
  (Some true).

Definition getUnreadUrgentEmails : M365Skill :=
M365Skill.mk
  None
  (Some "getUnreadUrgentEmails")
  (Some "Get all unread high-priority emails with sender, subject, and received time")
  (Some mail)
  (Some ("
      const messages = await m365.mail.list({
        filter: " +:+ dq +:+ "isRead eq false and importance eq 'high'" +:+ dq +:+ ",
        select: 'from,subject,receivedDateTime,bodyPreview',
        orderby: ['receivedDateTime desc'],
        top: 50
      });

      return messages.value.map(m => ({
        from: m.from.emailAddress.address,
        subject: m.subject,
        preview: m.bodyPreview?.substring(0, 100),
        received: m.receivedDateTime
      }));
    "))
  None None None
  (Some ["email"; "urgent"; "unread"; "filter"])
  None None Undefined
  (Some true)
  (Some true).

Definition analyzeTodaysMeetings : M365Skill :=
M365Skill.mk
  None
  (Some "analyzeTodaysMeetings")
  (Some "Analyze today's calendar meetings including duration, attendee count, and meeting types")
  (Some calendar)
  (Some ("
      const today = new Date();
      today.setHours(0, 0, 0, 0);
      const todayISO = today.toISOString();

      const tomorrow = new Date(today);
      tomorrow.setDate(tomorrow.getDate() + 1);
      const tomorrowISO = tomorrow.toISOString();

      const events = await m365.calendar.list({
        filter: `start/dateTime ge '${todayISO}' and start/dateTime lt '${tomorrowISO}'`,
        select: 'subject,start,end,attendees,isOnlineMeeting,organizer'
      });

      let totalDuration = 0;
      let onlineMeetings = 0;
      let totalAttendees = 0;
      const meetings = [];

      for (const event of events.value) {
        const start = new Date(event.start.dateTime);
        const end = new Date(event.end.dateTime);
        const duration = (end - start) / (1000 * 60); // minutes

        totalDuration += duration;
        if (event.isOnlineMeeting) onlineMeetings++;
        totalAttendees += (event.attendees?.length || 0);

        meetings.push({
          subject: event.subject,
          start: event.start.dateTime,
          duration: Math.round(duration),
          attendeeCount: event.attendees?.length || 0,
          isOnline: event.isOnlineMeeting
        });
      }

      return {
        date: today.toISOString().split('T')[0],
        totalMeetings: events.value.length,
        totalDuration: Math.round(totalDuration),
        averageDuration: events.value.length > 0 ? Math.round(totalDuration / events.value.length) : 0,
        onlineMeetings,
        totalAttendees,
        meetings: meetings.sort((a, b) => a.start.localeCompare(b.start))
      };
    "))
  None None None
  (Some ["calendar"; "meetings"; "analysis"; "daily"])
  None None Undefined
  (Some true)
  (Some true).

Definition getOverdueTasks : M365Skill :=
M365Skill.mk
  None
  (Some "getOverdueTasks")
  (Some "Get all overdue Planner tasks across all plans")
  (Some planner)
  (Some ("
      const plans = await m365.planner.listUserPlans();
      const overdueTasks = [];
      const today = new Date().toISOString();

      for (const plan of plans.value) {
        const tasks = await m365.planner.listPlanTasks({ planId: plan.id });

        for (const task of tasks.value) {
          if (task.dueDateTime && task.dueDateTime < today && task.percentComplete < 100) {
            const daysOverdue = Math.floor(
              (new Date() - new Date(task.dueDateTime)) / (1000 * 60 * 60 * 24)
            );

            overdueTasks.push({
              planName: plan.title,
              taskTitle: task.title,
              dueDate: task.dueDateTime.split('T')[0],
              daysOverdue,
              priority: task.priority,
              percentComplete: task.percentComplete
            });
          }
        }
      }

      return overdueTasks.sort((a, b) => b.daysOverdue - a.daysOverdue);
    "))
  None None None
  (Some ["planner"; "tasks"; "overdue"; "report"])
  None None Undefined
  (Some true)
  (Some true).

Definition getTodaysTodoTasks : M365Skill :=
M365Skill.mk
  None
  (Some "getTodaysTodoTasks")
  (Some "Get all To Do tasks due today across all lists")
  (Some todo)
  (Some ("
      const today = new Date();
      today.setHours(0, 0, 0, 0);
      const todayISO = today.toISOString().split('T')[0];

      const lists = await m365.todo.listTaskLists();
      const todaysTasks = [];

      for (const list of lists.value) {
        const tasks = await m365.todo.listTasks({ listId: list.id });

        for (const task of tasks.value) {
          if (task.dueDateTime?.dateTime) {
            const dueDate = task.dueDateTime.dateTime.split('T')[0];
            if (dueDate === todayISO && task.status !== 'completed') {
              todaysTasks.push({
                listName: list.displayName,
                taskTitle: task.title,
                importance: task.importance,
                isReminderOn: task.isReminderOn,
                status: task.status
              });
            }
          }
        }
      }

      return {
        date: todayISO,
        count: todaysTasks.length,
        tasks: todaysTasks.sort((a, b) => {
          const importanceOrder = { high: 0, normal: 1, low: 2 };
          return importanceOrder[a.importance] - importanceOrder[b.importance];
        })
      };
    "))
  None None None
  (Some ["todo"; "tasks"; "daily"; "due"])
  None None Undefined
  (Some true)
  (Some true).

Definition dailyProductivitySummary : M365Skill :=
M365Skill.mk
  None
  (Some "dailyProductivitySummary")
  (Some "Combined summary of emails, meetings, and tasks for today")
  (Some general)
  (Some ("
      const today = new Date();
      today.setHours(0, 0, 0, 0);
      const todayISO = today.toISOString();
      const tomorrow = new Date(today);
      tomorrow.setDate(tomorrow.getDate() + 1);
      const tomorrowISO = tomorrow.toISOString();

      // Get emails
      const emails = await m365.mail.list({
        filter: `receivedDateTime ge ${todayISO} and receivedDateTime lt ${tomorrowISO}`,
        select: 'isRead,importance',
        top: 100
      });

      // Get meetings
      const meetings = await m365.calendar.list({
        filter: `start/dateTime ge '${todayISO}' and start/dateTime lt '${tomorrowISO}'`,
        select: 'start,end'
      });

      // Calculate meeting duration
      let meetingMinutes = 0;
      for (const event of meetings.value) {
        const start = new Date(event.start.dateTime);
        const end = new Date(event.end.dateTime);
        meetingMinutes += (end - start) / (1000 * 60);
      }

      const emailStats = {
        total: emails.value.length,
        unread: emails.value.filter(e => !e.isRead).length,
        urgent: emails.value.filter(e => e.importance === 'high').length
      };

      return {
        date: today.toISOString().split('T')[0],
        emails: emailStats,
        meetings: {
          count: meetings.value.length,
          totalMinutes: Math.round(meetingMinutes)
        },
        summary: `${emailStats.total} emails (${emailStats.unread} unread, ${emailStats.urgent} urgent), ${meetings.value.length} meetings (${Math.round(meetingMinutes / 60)}h ${Math.round(meetingMinutes % 60)}m)`
      };
    "))
  None None None
  (Some ["productivity"; "summary"; "daily"; "report"; "overview"])
  None None Undefined
  (Some true)
  (Some true).

Definition builtin_catalogue : list M365Skill :=
  [summarizeTodaysEmails;
   getUnreadUrgentEmails;
   analyzeTodaysMeetings;
   getOverdueTasks;
   getTodaysTodoTasks;
   dailyProductivitySummary].

(** The loop of [loadBuiltinSkills]. Each catalogue object is handed to
    [save], which assigns to its fields: the loop returns the objects as
    they are after the call, next to the counter and the environment. *)
Fixpoint load_each (defs : list M365Skill) (loaded : nat) (w : World)
  : list M365Skill * nat * World :=
  match defs with
  | [] => ([], loaded, w)
  | skillDef :: rest =>
      let existing :=
        match M365Skill.name skillDef with
        | Some name =>
            if truthy (Some name) then SkillStorage.getByName name w else None
        | None => None
        end in
      match existing with
      | Some _ =>
          let '(rest, loaded, w) := load_each rest loaded w in
          (skillDef :: rest, loaded, w)
      | None =>
          let '(skillDef, saved, w) := SkillStorage.save skillDef w in
          let loaded :=
            match saved with
            | Ok _ => S loaded
            | Throw _ => loaded
            end in
          let '(rest, loaded, w) := load_each rest loaded w in
          (skillDef :: rest, loaded, w)
      end
  end.

Definition loadBuiltinSkills (w : World) : nat * World :=
  let '(defs, loaded, w) := load_each (BUILTIN_SKILLS w) 0 w in
  (loaded, set_BUILTIN_SKILLS defs w).

(** ** The execution engine and the tool handlers *)

(** A thrown value, as the [catch] block of a handler reads it: an
    [Error] with its message (a time-out, a [TypeError] of
    [JSON.stringify]); a value that is no [Error] (a number, a string, a
    plain object), whose [message] prints as the given JSON text or is
    left out; or a value on which reading or printing [message] and
    [stack] throws in turn ([null], [undefined], a hostile getter). *)
Inductive Thrown :=
  | AnError (message : string)
  | NotAnError (message : option string)
  | Hostile.

(** A value the script returned, as [JSON.stringify] treats it inside
    the answer: it prints as the given JSON text or is left out
    ([undefined], a function), or printing it throws (a BigInt, a cyclic
    object, a [toJSON] that throws). *)
Inductive Value :=
  | Prints (json : option string)
  | PrintThrows (thrown : Thrown).

(** What running the compiled script gives: the value the wrapper
    resolved to, or the value that was thrown, the time-out of the
    script budget or of the outer timer included. *)
Inductive Outcome :=
  | Returned (value : Value)
  | Threw (thrown : Thrown).

(** The payload of the answer of [delete-m365-skill]; [ToolError] is the
    answer that carries [isError: true]. *)
Inductive ToolResponse :=
  | DeleteSuccess (skillId : string)
  | ToolError (error : string).

(** What the handler of [execute-m365-skill] gives: the success answer
    with its printed fields; the answer [isError: true] of a skill that
    is not found; the answer [isError: true] its [catch] block builds
    from a thrown value; or nothing, when the [catch] block throws and
    the handler's promise rejects. *)
Inductive ExecuteAnswer :=
  | Executed (skillName skillId : option string) (usageCount : JsNumber)
             (executionTime : Z) (result : option string)
  | SkillNotFound (error : string)
  | Failed (thrown : Thrown)
  | HandlerThrows.

(** The [catch] block: it prints [error.message] and [error.stack]. *)
Definition caught (thrown : Thrown) : ExecuteAnswer :=
  match thrown with
  | Hostile => HandlerThrows
  | _ => Failed thrown
  end.

Definition falsy_number (n : option Z) : bool :=
  match n with
  | Some 0 => true
  | Some _ => false
  | None => true
  end.

(** [timeout || 30000] *)
Definition or_default (timeout : option Z) : Z :=
  if falsy_number timeout then 30000 else default 30000 timeout.

(** The text compiled by [executeM365Code]: the code inside an
    asynchronous function that is called at once. *)
Definition wrap_async (code : string) : string :=
  "
      (async function() {
        " +:+ code +:+ "
      })()
    ".

(** The text the handler of [execute-m365-skill] passes on: the
    parameter bag bound to [params], then the code of the skill. *)
Definition wrap_params (skillParams : option string) (skill : M365Skill)
  : string :=
  "
          const params = " +:+ default "{}" skillParams +:+ ";
          " +:+ default "undefined" (M365Skill.code skill) +:+ "
        ".

Section Tools.

(** The host virtual machine together with the Graph client: the outcome
    of the wrapped script under a budget in milliseconds. A run leaves
    the state kept here as it is: the context of the script has no
    binding that reaches the skills directory, and the script is taken
    not to leave its context nor to replace parts of the [Date] and
    [JSON] it is handed. A run that never settles gives no outcome and
    no answer. *)
Variable runInContext : string → Z → Outcome.

Definition executeM365Code (code : string) (timeout : option Z) (w : World)
  : Outcome * World :=
  let timeout := or_default timeout in
  let '(startTime, w) := Date_now w in
  let wrappedCode := wrap_async code in
  match runInContext wrappedCode timeout with
  | Returned result =>
      let '(_, w) := Date_now w in
      (Returned result, w)
  | Threw error =>
      let '(_, w) := Date_now w in
      (Threw error, w)
  end.

(** The handler of [execute-m365-skill]; [skillParams] is the JSON text
    of the parameter bag. *)
Definition execute_m365_skill
    (skillId : string) (skillParams : option string) (timeout : option Z)
    (w : World) : ExecuteAnswer * World :=
  let skill :=
    match SkillStorage.get skillId w with
    | Some skill => Some skill
    | None => SkillStorage.getByName skillId w
    end in
  match skill with
  | None => (SkillNotFound ("Skill not found: " +:+ skillId), w)
  | Some skill =>
      let wrappedCode := wrap_params skillParams skill in
      let '(startTime, w) := Date_now w in
      let '(run, w) :=
        executeM365Code wrappedCode (Some (or_default timeout)) w in
      match run with
      | Threw error => (caught error, w)
      | Returned result =>
          let '(finished, w) := Date_now w in
          let executionTime := finished - startTime in
          let '(counted, w) :=
            SkillStorage.incrementUsage (SkillStorage.file_key skill) w in
          match counted with
          | Throw (Error message) => (caught (AnError message), w)
          | Ok _ =>
              (* the answer is printed, [result] inside it *)
              match result with
              | PrintThrows error => (caught error, w)
              | Prints json =>
                  (Executed (M365Skill.name skill) (M365Skill.id skill)
                     (json_number (js_incr (M365Skill.usageCount skill)))
                     executionTime json, w)
              end
          end
      end
  end.

End Tools.

(** The handler of [delete-m365-skill]. *)
Definition delete_m365_skill (skillId : string) (w : World)
  : ToolResponse * World :=
  let skill := SkillStorage.get skillId w in
  if match skill with
     | Some skill => bool_decide (M365Skill.isBuiltin skill = Some true)
     | None => false
     end
  then (ToolError "Cannot delete built-in skills", w)
  else
    let '(deleted, w) := SkillStorage.delete skillId w in
    if negb deleted
    then (ToolError ("Skill not found: " +:+ skillId), w)
    else (DeleteSuccess skillId, w).

(** ** The capability facade ([interface M365Client]) *)

Inductive Capability :=
  | mail_list | mail_get | mail_send | mail_delete
  | calendar_list | calendar_get | calendar_create | calendar_update
  | calendar_delete
  | teams_list | teams_getChannels | teams_getMessages
  | files_list | files_get | files_upload
  | sharepoint_searchSites | sharepoint_getSite | sharepoint_getLists
  | sharepoint_getListItems
  | planner_listTasks | planner_getTask | planner_createTask
  | planner_updateTask
  | todo_listLists | todo_listTasks | todo_createTask | todo_updateTask.

Definition capability_path (op : Capability) : string :=
  match op with
  | mail_list => "m365.mail.list"
  | mail_get => "m365.mail.get"
  | mail_send => "m365.mail.send"
  | mail_delete => "m365.mail.delete"
  | calendar_list => "m365.calendar.list"
  | calendar_get => "m365.calendar.get"
  | calendar_create => "m365.calendar.create"
  | calendar_update => "m365.calendar.update"
  | calendar_delete => "m365.calendar.delete"
  | teams_list => "m365.teams.list"
  | teams_getChannels => "m365.teams.getChannels"
  | teams_getMessages => "m365.teams.getMessages"
  | files_list => "m365.files.list"
  | files_get => "m365.files.get"
  | files_upload => "m365.files.upload"
  | sharepoint_searchSites => "m365.sharepoint.searchSites"
  | sharepoint_getSite => "m365.sharepoint.getSite"
  | sharepoint_getLists => "m365.sharepoint.getLists"
  | sharepoint_getListItems => "m365.sharepoint.getListItems"
  | planner_listTasks => "m365.planner.listTasks"
  | planner_getTask => "m365.planner.getTask"
  | planner_createTask => "m365.planner.createTask"
  | planner_updateTask => "m365.planner.updateTask"
  | todo_listLists => "m365.todo.listLists"
  | todo_listTasks => "m365.todo.listTasks"
  | todo_createTask => "m365.todo.createTask"
  | todo_updateTask => "m365.todo.updateTask"
  end.

(** The characters of [s] may stand between single quotes as they are:
    no quote, no backslash, no line feed. *)
Definition literal_body (s : string) : bool :=
  negb (includes s "'")
  && negb (includes s (String "092"%char ""))
  && negb (includes s (String "010"%char "")).

(** The script that awaits one capability operation on one string
    argument and returns what it resolved to. *)
Definition call_script (op : Capability) (argument : string) : string :=
  "return await " +:+ capability_path op +:+ "('" +:+ argument +:+ "');".

(** Scripts that do nothing but call a capability operation and return
    the plain value it gives. *)
Inductive CapabilityOnly : string → Prop :=
  | capability_call (op : Capability) (argument : string) :
      literal_body argument = true →
      CapabilityOnly (call_script op argument).

(** ** Predicates used in the statements *)

(** A stored document written by [save]: it lies in the file named
    after its own identifier and carries the four required fields. *)
Definition stored_ok (k : string) (s : M365Skill) : Prop :=
  M365Skill.id s = Some k
  ∧ truthy (M365Skill.id s) = true
  ∧ truthy (M365Skill.name s) = true
  ∧ truthy (M365Skill.description s) = true
  ∧ truthy (M365Skill.code s) = true
  ∧ is_Some (M365Skill.category s).

Definition store_ok (m : gmap string M365Skill) : Prop :=
  ∀ k s, m !! k = Some s → stored_ok k s.

(** The [usageCount] of the record is a number. *)
Definition numeric (s : M365Skill) : Prop :=
  ∃ n, M365Skill.usageCount s = Num n.

(** Every stored document has a number as its [usageCount]. *)
Definition counted (m : gmap string M365Skill) : Prop :=
  ∀ k s, m !! k = Some s → numeric s.

(** [a] has been used at least as often as [b]. *)
Definition used_at_least (a b : M365Skill) : Prop :=
  ∃ x y, M365Skill.usageCount a = Num x ∧ M365Skill.usageCount b = Num y ∧ y ≤ x.

(** The reading of the filter bag in which every key that is present
    is a predicate the record has to satisfy. *)
Definition satisfies_present (f : SkillFilters) (s : M365Skill) : Prop :=
  (∀ c, SkillFilters.category f = Some c →
        category_name <$> M365Skill.category s = Some c)
  ∧ (∀ a, SkillFilters.author f = Some a → M365Skill.author s = Some a)
  ∧ (∀ p, SkillFilters.isPublic f = Some p → M365Skill.isPublic s = Some p)
  ∧ (∀ b, SkillFilters.isBuiltin f = Some b →
          default false (M365Skill.isBuiltin s) = b)
  ∧ (∀ ts, SkillFilters.tags f = Some ts →
           ∃ t stags, t ∈ ts ∧ M365Skill.tags s = Some stags ∧ t ∈ stags).

(** The reading the loop of [list] implements: a [category] or [author]
    that is the empty string is not applied. *)
Definition satisfies_applied (f : SkillFilters) (s : M365Skill) : Prop :=
  (∀ c, SkillFilters.category f = Some c → c ≠ "" →
        category_name <$> M365Skill.category s = Some c)
  ∧ (∀ a, SkillFilters.author f = Some a → a ≠ "" →
          M365Skill.author s = Some a)
  ∧ (∀ p, SkillFilters.isPublic f = Some p → M365Skill.isPublic s = Some p)
  ∧ (∀ b, SkillFilters.isBuiltin f = Some b →
          default false (M365Skill.isBuiltin s) = b)
  ∧ (∀ ts, SkillFilters.tags f = Some ts →
           ∃ t stags, t ∈ ts ∧ M365Skill.tags s = Some stags ∧ t ∈ stags).

(** The error pushed for a matched pattern. *)
Definition forbidden_message (pattern : string) : string :=
  "Forbidden pattern detected: " +:+ pattern.

(** The identifiers the next [n] calls of [randomUUID] will return. *)
Definition next_ids (n : nat) (w : World) : list string :=
  (fun i => uuid_text (entropy w i)) <$> seq (draws w) n.

(** Some record of the store bears the name [n]. *)
Definition named (n : string) (m : gmap string M365Skill) : Prop :=
  ∃ k s, m !! k = Some s ∧ M365Skill.name s = Some n.

(** The definition [d] of a catalogue object agrees with the literal
    [d0] of the source on every field the literal sets; [save] assigns
    the others. *)
Definition same_definition (d d0 : M365Skill) : Prop :=
  M365Skill.name d = M365Skill.name d0
  ∧ M365Skill.description d = M365Skill.description d0
  ∧ M365Skill.category d = M365Skill.category d0
  ∧ M365Skill.code d = M365Skill.code d0
  ∧ M365Skill.tags d = M365Skill.tags d0
  ∧ M365Skill.isPublic d = M365Skill.isPublic d0
  ∧ M365Skill.isBuiltin d = M365Skill.isBuiltin d0.

(** [save] accepts the record: the four required fields are truthy. *)
Definition complete (s : M365Skill) : Prop :=
  truthy (M365Skill.name s) = true
  ∧ truthy (M365Skill.description s) = true
  ∧ truthy (M365Skill.code s) = true
  ∧ is_Some (M365Skill.category s).

(** The identifier an object already carries, if it is truthy. *)
Definition own_id (s : M365Skill) : option string :=
  if truthy (M365Skill.id s) then M365Skill.id s else None.

(** The file names a pass over [defs] may write: the identifiers the
    objects carry and the identifiers that may be drawn for the others.
    They are new when they are pairwise distinct and none is yet the
    name of a file. *)
Definition candidate_keys (defs : list M365Skill) (w : World) : list string :=
  omap own_id defs ++ next_ids (length defs) w.

Definition fresh_keys (defs : list M365Skill) (w : World) : Prop :=
  NoDup (candidate_keys defs w)
  ∧ ∀ k, k ∈ candidate_keys defs w → files w !! k = None.

(** The record a [save] without identifier builds from [skill] in [w]. *)
Definition created (skill : M365Skill) (w : World) : M365Skill :=
  M365Skill.mk (Some (uuid_text (entropy w (draws w))))
    (M365Skill.name skill) (M365Skill.description skill)
    (M365Skill.category skill) (M365Skill.code skill)
    (M365Skill.parameters skill) (M365Skill.returnType skill)
    (M365Skill.author skill) (M365Skill.tags skill)
    (Some (clock w (reads w))) (Some (clock w (S (reads w))))
    (Num 0) (M365Skill.isPublic skill)
    (Some (default false (M365Skill.isBuiltin skill))).

(** The resolution of the handlers: by identifier first, then by name. *)
Definition resolves (skillId : string) (w : World) (skill : M365Skill) : Prop :=
  SkillStorage.get skillId w = Some skill
  ∨ (SkillStorage.get skillId w = None
     ∧ SkillStorage.getByName skillId w = Some skill).

(** ** Sample inputs *)

Definition testSkill : M365Skill :=
  M365Skill.mk None (Some "testSkill") (Some "A test skill") (Some general)
    (Some "return 'test';") None None None None None None Undefined None None.

(** A start of the process on an empty directory; the clock advances by
    one millisecond between two readings. *)
Definition fresh_world : World :=
  mkWorld ∅ (fun n => 1762041600000 + Z.of_nat n) 0
          (fun n => N.of_nat (S n) * 2 ^ 48)%N 0 builtin_catalogue.

Definition incompleteSkill : M365Skill :=
  M365Skill.mk None (Some "noCode") (Some "A skill without code") (Some mail)
    None None None None None None None Undefined None None.

Definition stored (k name : string) (c : Category) (tags : list string)
    (used : Z) (builtin : option bool) : M365Skill :=
  M365Skill.mk (Some k) (Some name) (Some "A stored skill") (Some c)
    (Some "return await m365.mail.list({ top: 10 });") None None None
    (Some tags) (Some 1762041500000) (Some 1762041500000) (Num used)
    (Some false) builtin.

Definition weeklyReport : M365Skill :=
  stored "id-a" "report" mail ["weekly"] 2 None.
Definition dailyReport : M365Skill :=
  stored "id-b" "report" mail ["daily"] 7 (Some false).
Definition agenda : M365Skill :=
  stored "id-c" "agenda" calendar ["daily"] 5 (Some true).

(** A directory that holds three skills, two of them under one name. *)
Definition sample_files : gmap string M365Skill :=
  <["id-a" := weeklyReport]> (<["id-b" := dailyReport]> (<["id-c" := agenda]> ∅)).

Definition sample_world : World :=
  mkWorld sample_files (clock fresh_world) 0 (entropy fresh_world) 0
          builtin_catalogue.

(** ** [SkillStorage.search] *)

(** [toLowerCase] on one code unit below 256: the letters A to Z and
    the capital letters of Latin-1 (192 to 222, the multiplication sign
    215 apart) move up by 32; every other code unit is its own lower
    case. *)
Definition toLowerCase_unit (c : ascii) : ascii :=
  let n := nat_of_ascii c in
  if ((65 <=? n) && (n <=? 90)
      || (192 <=? n) && (n <=? 222) && negb (n =? 215))%nat
  then ascii_of_nat (n + 32)
  else c.

Fixpoint toLowerCase (s : string) : string :=
  match s with
  | EmptyString => EmptyString
  | String c s' => String (toLowerCase_unit c) (toLowerCase s')
  end.

Definition not_a_string : string :=
  "Cannot read properties of undefined (reading 'toLowerCase')".

(** The callback of the [filter] of [search]; reading [toLowerCase] of
    an absent [name] or [description] throws. *)
Definition search_matches (lowerQuery : string) (skill : M365Skill)
  : Result bool :=
  match M365Skill.name skill with
  | None => Throw (Error not_a_string)
  | Some name =>
      if includes (toLowerCase name) lowerQuery then Ok true
      else
        match M365Skill.description skill with
        | None => Throw (Error not_a_string)
        | Some description =>
            if includes (toLowerCase description) lowerQuery then Ok true
            else
              Ok match M365Skill.tags skill with
                 | Some tags =>
                     existsb (fun tag => includes (toLowerCase tag) lowerQuery)
                             tags
                 | None => false
                 end
        end
  end.

(** [Array.prototype.filter] with a callback that may throw. *)
Fixpoint Array_filter {A} (f : A → Result bool) (l : list A) : Result (list A) :=
  match l with
  | [] => Ok []
  | x :: l' =>
      match f x with
      | Throw e => Throw e
      | Ok keep =>
          match Array_filter f l' with
          | Throw e => Throw e
          | Ok kept => Ok (if keep then x :: kept else kept)
          end
      end
  end.

Definition search (query : string) (w : World) : Result (list M365Skill) :=
  let skills := SkillStorage.list None w in
  let lowerQuery := toLowerCase query in
  Array_filter (search_matches lowerQuery) skills.

(** ** The other handlers of [skill-tools.ts] *)

(** The answer of [create-m365-skill]: the printed fields of the saved
    skill, the errors of the validator, or an error message. *)
Inductive CreateResponse :=
  | Created (id name description : option string) (category : option Category)
            (tags : option (list string)) (createdAt : option Timestamp)
  | CreateInvalid (details : list string)
  | CreateError (error : string).

Definition already_exists (name : string) : string :=
  "Skill with name '" +:+ name
  +:+ "' already exists. Use update-m365-skill to modify it.".

(** The object literal the handler passes to [save]. *)
Definition new_skill (name description : string) (category : Category)
    (code : string) (parameters : option (list (string * SkillParameter.t)))
    (tags : option (list string)) (isPublic : option bool) : M365Skill :=
  M365Skill.mk None (Some name) (Some description) (Some category) (Some code)
    parameters None None tags None None Undefined
    (Some (default false isPublic)) None.

Definition create_m365_skill (name description : string) (category : Category)
    (code : string) (parameters : option (list (string * SkillParameter.t)))
    (tags : option (list string)) (isPublic : option bool) (w : World)
  : CreateResponse * World :=
  let validation := validateCode code in
  if negb (valid validation) then (CreateInvalid (errors validation), w)
  else
    match SkillStorage.getByName name w with
    | Some _ => (CreateError (already_exists name), w)
    | None =>
        let '(_, saved, w) :=
          SkillStorage.save
            (new_skill name description category code parameters tags isPublic)
            w in
        match saved with
        | Ok skill =>
            (Created (M365Skill.id skill) (M365Skill.name skill)
               (M365Skill.description skill) (M365Skill.category skill)
               (M365Skill.tags skill) (M365Skill.createdAt skill), w)
        | Throw (Error message) => (CreateError message, w)
        end
    end.

(** The [updates] of [update-m365-skill], as its schema admits them. *)
Module SkillUpdates.
Record t := mk {
  name : option string;
  description : option string;
  code : option string;
  category : option Category;
  tags : option (list string);
  parameters : option (list (string * SkillParameter.t));
  isPublic : option bool
}.
End SkillUpdates.

Abbreviation SkillUpdates := SkillUpdates.t.

(** [o2 ?? o1]: the own property of the source object wins. *)
Definition assigned {A} (update current : option A) : option A :=
  match update with
  | Some v => Some v
  | None => current
  end.

(** [Object.assign(skill, updates)] *)
Definition Object_assign (skill : M365Skill) (updates : SkillUpdates) : M365Skill :=
  M365Skill.mk (M365Skill.id skill)
    (assigned (SkillUpdates.name updates) (M365Skill.name skill))
    (assigned (SkillUpdates.description updates) (M365Skill.description skill))
    (assigned (SkillUpdates.category updates) (M365Skill.category skill))
    (assigned (SkillUpdates.code updates) (M365Skill.code skill))
    (assigned (SkillUpdates.parameters updates) (M365Skill.parameters skill))
    (M365Skill.returnType skill) (M365Skill.author skill)
    (assigned (SkillUpdates.tags updates) (M365Skill.tags skill))
    (M365Skill.createdAt skill) (M365Skill.updatedAt skill)
    (M365Skill.usageCount skill)
    (assigned (SkillUpdates.isPublic updates) (M365Skill.isPublic skill))
    (M365Skill.isBuiltin skill).

Inductive UpdateResponse :=
  | Updated (id name description : option string) (category : option Category)
            (updatedAt : option Timestamp)
  | UpdateInvalid (details : list string)
  | UpdateError (error : string).

Definition update_m365_skill (skillId : string) (updates : SkillUpdates)
    (w : World) : UpdateResponse * World :=
  match SkillStorage.get skillId w with
  | None => (UpdateError ("Skill not found: " +:+ skillId), w)
  | Some skill =>
      let validation := validateCode (default "" (SkillUpdates.code updates)) in
      if truthy (SkillUpdates.code updates) && negb (valid validation)
      then (UpdateInvalid (errors validation), w)
      else
        let skill := Object_assign skill updates in
        let '(_, saved, w) := SkillStorage.save skill w in
        match saved with
        | Ok updated =>
            (Updated (M365Skill.id updated) (M365Skill.name updated)
               (M365Skill.description updated) (M365Skill.category updated)
               (M365Skill.updatedAt updated), w)
        | Throw (Error message) => (UpdateError message, w)
        end
  end.

(** ** The handler of [execute-m365-code] ([graph-tools.ts]) *)

(** The success answer, the answer [isError: true] of the [catch]
    block, or nothing when the [catch] block throws. *)
Inductive CodeAnswer :=
  | CodeSuccess (result : option string) (executedAt : Timestamp)
  | CodeFailed (thrown : Thrown)
  | CodeHandlerThrows.

Definition code_caught (thrown : Thrown) : CodeAnswer :=
  match thrown with
  | Hostile => CodeHandlerThrows
  | _ => CodeFailed thrown
  end.

Definition execute_m365_code (runInContext : string → Z → Outcome)
    (code : string) (timeout : option Z) (w : World) : CodeAnswer * World :=
  let timeout := default 30000 timeout in
  let maxTimeout := 60000 in
  let actualTimeout := Z.min timeout maxTimeout in
  let '(run, w) := executeM365Code runInContext code (Some actualTimeout) w in
  match run with
  | Returned result =>
      let '(executedAt, w) := Date_now w in
      match result with
      | Prints json => (CodeSuccess json executedAt, w)
      | PrintThrows error => (code_caught error, w)
      end
  | Threw error => (code_caught error, w)
  end.

(** ** Further predicates *)

(** No two files hold records of the same name. *)
Definition unique_names (m : gmap string M365Skill) : Prop :=
  ∀ k1 k2 s1 s2 n,
    m !! k1 = Some s1 → m !! k2 = Some s2 →
    M365Skill.name s1 = Some n → M365Skill.name s2 = Some n → k1 = k2.

(** The code of every stored record passes the validator. *)
Definition codes_valid (m : gmap string M365Skill) : Prop :=
  ∀ k s c, m !! k = Some s → M365Skill.code s = Some c →
           valid (validateCode c) = true.

(** The three tests of [search] on a record that has a name and a
    description. *)
Definition found_by (query : string) (s : M365Skill) : Prop :=
  (∃ n, M365Skill.name s = Some n
        ∧ substring_of (toLowerCase query) (toLowerCase n))
  ∨ (∃ d, M365Skill.description s = Some d
          ∧ substring_of (toLowerCase query) (toLowerCase d))
  ∨ (∃ ts t, M365Skill.tags s = Some ts ∧ t ∈ ts
             ∧ substring_of (toLowerCase query) (toLowerCase t)).

Definition categories : list Category :=
  [mail; calendar; teams; files_; sharepoint; planner; todo; general].

Definition by_category (c : Category) : SkillFilters :=
  SkillFilters.mk (Some (category_name c)) None None None None.

(** The record [s] was written from the catalogue object [d]. *)
Definition written_from (s d : M365Skill) : Prop :=
  M365Skill.name s = M365Skill.name d
  ∧ M365Skill.description s = M365Skill.description d
  ∧ M365Skill.category s = M365Skill.category d
  ∧ M365Skill.code s = M365Skill.code d
  ∧ M365Skill.tags s = M365Skill.tags d
  ∧ M365Skill.isPublic s = M365Skill.isPublic d
  ∧ M365Skill.isBuiltin s = Some (default false (M365Skill.isBuiltin d)).

(** A skill saved with an identifier and without counter. *)
Definition uncounted : M365Skill :=
  M365Skill.mk (Some "id-u") (Some "uncounted") (Some "Saved without counter")
    (Some general) (Some "return 1;") None None None None None None Undefined
    None None.

(** The record [uncounted] as [save] leaves it in an empty directory. *)
Definition resaved : M365Skill :=
  M365Skill.set_updatedAt (Some 1762041600000) uncounted.

Definition resaved_world : World :=
  (SkillStorage.save uncounted fresh_world).2.

(** A record whose counter has reached 2^53. *)
Definition saturated : M365Skill :=
  stored "id-s" "saturated" general [] (2 ^ 53) None.

Definition saturated_world : World :=
  mkWorld (<["id-s" := saturated]> ∅) (clock fresh_world) 0
          (entropy fresh_world) 0 builtin_catalogue.

(** An engine on which every script returns the BigInt [10n]. *)
Definition returns_bigint (code : string) (timeout : Z) : Outcome :=
  Returned (PrintThrows (AnError "Do not know how to serialize a BigInt")).

(** A directory, as [save] can write it, with two skills of one name
    and, between them in the order of the directory, a skill of another
    name that was saved with an identifier of its own and no
    [usageCount]. *)
Definition seldom : M365Skill := stored "id-3" "digest" mail [] 1 None.
Definition often : M365Skill := stored "id-2" "digest" mail [] 3 None.
Definition draft : M365Skill :=
  M365Skill.mk (Some "id-1") (Some "draft") (Some "Saved without counter")
    (Some general) (Some "return 1;") None None None None None
    (Some 1762041500000) Undefined None None.

Definition mixed_files : gmap string M365Skill :=
  <["id-3" := seldom]> (<["id-1" := draft]> (<["id-2" := often]> ∅)).

Definition mixed_world : World :=
  mkWorld mixed_files (clock fresh_world) 0 (entropy fresh_world) 0
          builtin_catalogue.

(** The test of [search] on a record that has a name and a
    description, as a boolean. *)
Definition search_test (query : string) (s : M365Skill) : bool :=
  includes (toLowerCase (default "" (M365Skill.name s))) (toLowerCase query)
  || includes (toLowerCase (default "" (M365Skill.description s)))
              (toLowerCase query)
  || match M365Skill.tags s with
     | Some tags =>
         existsb (fun tag => includes (toLowerCase tag) (toLowerCase query))
                 tags
     | None => false
     end.

(** An engine on which a script needs two minutes: under a smaller
    budget the run ends with the time-out. *)
Definition two_minutes (code : string) (timeout : Z) : Outcome :=
  if timeout <? 120000 then Threw (AnError "Execution timeout")
  else Returned (Prints (Some "1")).

(** Updates that replace the code, and updates that take the name of
    another skill. *)
Definition new_code : SkillUpdates :=
  SkillUpdates.mk None None (Some "return 2;") None None None None.

Definition take_name : SkillUpdates :=
  SkillUpdates.mk (Some "report") None None None None None None.

(** * Properties *)

(** ** Substring search *)

Lemma startsWith_spec s p : startsWith s p = true ↔ ∃ r, s = p +:+ r.
Proof.
  revert s. induction p as [|a p IH]; intros s; simpl.
  - split; [intros _; by exists s | done].
  - destruct s as [|b s].
    + split; [done | intros [r Hr]; discriminate Hr].
    + rewrite andb_true_iff, bool_decide_eq_true, IH. split.
      * intros [-> [r ->]]. by exists r.
      * intros [r Hr]. injection Hr as -> ->. eauto.
Qed.

Lemma includes_spec s p : includes s p = true ↔ substring_of p s.
Proof.
  unfold substring_of. induction s as [|b s IH].
  - simpl. rewrite orb_false_r, startsWith_spec. split.
    + intros [r Hr]. by exists "", r.
    + intros [l [r Hr]]. destruct l; [by exists r | discriminate Hr].
  - cbn [includes]. rewrite orb_true_iff, IH, startsWith_spec. split.
    + intros [[r Hr] | [l [r Hr]]].
      * by exists "", r.
      * exists (String b l), r. simpl. by rewrite Hr.
    + intros [l [r Hr]]. destruct l as [|c l].
      * left. by exists r.
      * right. simpl in Hr. injection Hr as _ Hr. by exists l, r.
Qed.

Lemma includes_false s p : includes s p = false ↔ ¬ substring_of p s.
Proof. rewrite <- includes_spec. by destruct (includes s p). Qed.

(** ** The validator *)

Lemma validate_loop code patterns acc :
  foldl (fun errors pattern =>
           if includes code pattern
           then errors ++ ["Forbidden pattern detected: " +:+ pattern]
           else errors)
        acc patterns
  = acc ++ (forbidden_message <$> List.filter (includes code) patterns).
Proof.
  revert acc. induction patterns as [|p ps IH]; intros acc; simpl.
  - by rewrite app_nil_r.
  - rewrite IH. destruct (includes code p); simpl; [|done].
    by rewrite <- app_assoc.
Qed.

Lemma validateCode_errors code :
  errors (validateCode code)
  = forbidden_message <$> List.filter (includes code) forbidden.
Proof. unfold validateCode. cbn [errors]. by rewrite validate_loop. Qed.

Lemma validateCode_valid code :
  valid (validateCode code)
  = bool_decide (List.filter (includes code) forbidden = []).
Proof.
  unfold validateCode. cbn [valid]. rewrite validate_loop, app_nil_l.
  rewrite length_fmap. apply bool_decide_ext.
  by destruct (List.filter (includes code) forbidden).
Qed.

Lemma filter_nil_iff {A} (f : A → bool) (l : list A) :
  List.filter f l = [] ↔ ∀ x, x ∈ l → f x = false.
Proof.
  induction l as [|a l IH]; simpl.
  - split; [intros _ x Hx; by apply elem_of_nil in Hx | done].
  - destruct (f a) eqn:Ha.
    + split; [done |]. intros H. specialize (H a (list_elem_of_here _ _)).
      congruence.
    + rewrite IH. split.
      * intros H x Hx. apply elem_of_cons in Hx as [-> | Hx]; auto.
      * intros H x Hx. apply H. by apply list_elem_of_further.
Qed.

(** C1, as amended. [validateCode] answers [valid = false] exactly when
    the text contains one of the deny-listed substrings; its errors are
    the messages of the matched patterns, one each, in the order of the
    list; and a text that contains none of the substrings, whatever it
    calls, is valid with no error. *)
Theorem validateCode_deny_list (code : string) :
  (valid (validateCode code) = false
   ↔ ∃ pattern, pattern ∈ forbidden ∧ substring_of pattern code)
  ∧ errors (validateCode code)
    = forbidden_message <$> List.filter (includes code) forbidden
  ∧ ((∀ pattern, pattern ∈ forbidden → ¬ substring_of pattern code)
     → valid (validateCode code) = true ∧ errors (validateCode code) = []).
Proof.
  split_and!.
  - rewrite validateCode_valid, bool_decide_eq_false. split.
    + destruct (List.filter (includes code) forbidden) as [|p l] eqn:Hf; [done|].
      intros _. assert (In p (List.filter (includes code) forbidden)) as Hin.
      { rewrite Hf. by left. }
      apply filter_In in Hin as [Hin Hp]. exists p. split.
      * by apply list_elem_of_In.
      * by apply includes_spec.
    + rewrite filter_nil_iff. intros [p [Hp Hs]] H. apply includes_spec in Hs.
      specialize (H p Hp). congruence.
  - apply validateCode_errors.
  - intros H.
    assert (List.filter (includes code) forbidden = []) as Hnil.
    { apply filter_nil_iff. intros p Hp. apply includes_false. by apply H. }
    rewrite validateCode_valid, validateCode_errors, Hnil.
    split; [by apply bool_decide_eq_true | done].
Qed.

(** C1, as stated, fails: the script that searches the SharePoint sites
    for the word [child_process] only calls a capability operation and
    returns its value, and it is rejected. *)
Lemma validateCode_rejects_capability_call :
  CapabilityOnly (call_script sharepoint_searchSites "child_process")
  ∧ valid (validateCode (call_script sharepoint_searchSites "child_process"))
    = false
  ∧ errors (validateCode (call_script sharepoint_searchSites "child_process"))
    = ["Forbidden pattern detected: child_process"].
Proof.
  split_and!.
  - by constructor.
  - reflexivity.
  - reflexivity.
Qed.

Example call_script_text :
  call_script sharepoint_searchSites "child_process"
  = "return await m365.sharepoint.searchSites('child_process');".
Proof. reflexivity. Qed.

Example validateCode_safe_code :
  validateCode "
          const messages = await m365.mail.list({ top: 10 });
          return messages.value.filter(m => m.isRead === false);
        " = {| valid := true; errors := [] |}.
Proof. reflexivity. Qed.

Example validateCode_eval :
  validateCode ("eval(" +:+ dq +:+ "malicious code" +:+ dq +:+ ")")
  = {| valid := false; errors := ["Forbidden pattern detected: eval("] |}.
Proof. reflexivity. Qed.

Example validateCode_two_patterns :
  errors (validateCode "import('child_process')")
  = ["Forbidden pattern detected: import(";
     "Forbidden pattern detected: child_process"].
Proof. reflexivity. Qed.

(** ** Identifiers *)

Lemma length_append s t :
  String.length (s +:+ t) = (String.length s + String.length t)%nat.
Proof. induction s as [|a s IH]; simpl; [done | by rewrite IH]. Qed.

Lemma length_hex d n : String.length (hex d n) = d.
Proof.
  revert n. induction d as [|d IH]; intros n; simpl; [done|].
  rewrite length_append, IH. simpl. lia.
Qed.

Lemma length_uuid_text bits : String.length (uuid_text bits) = 36%nat.
Proof.
  unfold uuid_text. rewrite !length_append, !length_hex. reflexivity.
Qed.

Lemma truthy_uuid_text bits : truthy (Some (uuid_text bits)) = true.
Proof.
  pose proof (length_uuid_text bits) as H.
  destruct (uuid_text bits); [discriminate H | done].
Qed.

Lemma truthy_nonempty s : truthy (Some s) = true ↔ s ≠ "".
Proof. destruct s; simpl; split; congruence. Qed.

(** ** [save] *)

Lemma save_new skill w :
  truthy (M365Skill.id skill) = false →
  complete skill →
  SkillStorage.save skill w
  = (created skill w, Ok (created skill w),
     mkWorld (<[uuid_text (entropy w (draws w)) := created skill w]> (files w))
             (clock w) (S (S (reads w))) (entropy w) (S (draws w))
             (BUILTIN_SKILLS w)).
Proof.
  intros Hid (Hn & Hd & Hc & Hcat). destruct skill; simpl in *.
  unfold SkillStorage.save, created. simpl. rewrite Hid. simpl.
  destruct isBuiltin as [b|]; simpl; rewrite Hn, Hd, Hc; simpl;
    rewrite (bool_decide_eq_true_2 _ Hcat); simpl; reflexivity.
Qed.

Lemma save_existing skill w k :
  M365Skill.id skill = Some k →
  truthy (Some k) = true →
  complete skill →
  let s' := M365Skill.set_updatedAt (Some (clock w (reads w))) skill in
  SkillStorage.save skill w
  = (s', Ok s',
     mkWorld (<[k := M365Skill.json s']> (files w)) (clock w) (S (reads w))
             (entropy w) (draws w) (BUILTIN_SKILLS w)).
Proof.
  intros Hid Hk (Hn & Hd & Hc & Hcat). destruct skill; simpl in *. subst id.
  destruct k as [|a k]; [done|].
  unfold SkillStorage.save. simpl.
  rewrite Hn, Hd, Hc. simpl. rewrite (bool_decide_eq_true_2 _ Hcat). simpl.
  reflexivity.
Qed.

Lemma save_incomplete skill w :
  ¬ complete skill →
  ∃ skill' w',
    SkillStorage.save skill w
    = (skill', Throw (Error SkillStorage.missing_fields), w')
    ∧ files w' = files w
    ∧ BUILTIN_SKILLS w' = BUILTIN_SKILLS w.
Proof.
  intros Hinc.
  assert (negb (truthy (M365Skill.name skill))
          || negb (truthy (M365Skill.description skill))
          || negb (truthy (M365Skill.code skill))
          || negb (bool_decide (is_Some (M365Skill.category skill))) = true)
    as Hbad.
  { destruct (truthy (M365Skill.name skill)) eqn:Hn; [|done].
    destruct (truthy (M365Skill.description skill)) eqn:Hd; [|done].
    destruct (truthy (M365Skill.code skill)) eqn:Hc; [|done].
    simpl. case_bool_decide as Hcat; [|done].
    exfalso. apply Hinc. by repeat split. }
  destruct skill; simpl in *. unfold SkillStorage.save. simpl M365Skill.id.
  destruct (truthy id); simpl.
  - rewrite Hbad. eauto.
  - destruct isBuiltin; simpl; rewrite Hbad; eauto.
Qed.

(** C2, as amended. A [save] of a record without identifier whose four
    required fields are present returns a record with a non-empty [id],
    [usageCount] 0 and [isBuiltin] false unless the caller supplied it;
    [createdAt] and [updatedAt] are two successive readings of the
    clock, so that [createdAt ≤ updatedAt] when the clock does not run
    backwards and the two are equal exactly when it has not advanced
    between the readings. The record is what [get] then returns. *)
Theorem save_creates (skill : M365Skill) (w : World) :
  truthy (M365Skill.id skill) = false →
  truthy (M365Skill.name skill) = true →
  truthy (M365Skill.description skill) = true →
  truthy (M365Skill.code skill) = true →
  is_Some (M365Skill.category skill) →
  ∃ saved w' k,
    SkillStorage.save skill w = (saved, Ok saved, w')
    ∧ M365Skill.id saved = Some k ∧ k ≠ ""
    ∧ M365Skill.createdAt saved = Some (clock w (reads w))
    ∧ M365Skill.updatedAt saved = Some (clock w (S (reads w)))
    ∧ (clock w (reads w) ≤ clock w (S (reads w)) →
       ∃ c u, M365Skill.createdAt saved = Some c
              ∧ M365Skill.updatedAt saved = Some u ∧ c ≤ u)
    ∧ (clock w (reads w) = clock w (S (reads w)) ↔
       M365Skill.createdAt saved = M365Skill.updatedAt saved)
    ∧ M365Skill.usageCount saved = Num 0
    ∧ (M365Skill.isBuiltin skill = None → M365Skill.isBuiltin saved = Some false)
    ∧ (∀ b, M365Skill.isBuiltin skill = Some b →
            M365Skill.isBuiltin saved = Some b)
    ∧ SkillStorage.get k w' = Some saved.
Proof.
  intros Hid Hn Hd Hc Hcat.
  pose proof (save_new skill w Hid (conj Hn (conj Hd (conj Hc Hcat)))) as Hs.
  eexists _, _, (uuid_text (entropy w (draws w))).
  split; [exact Hs|]. unfold created. cbn [M365Skill.id M365Skill.createdAt
    M365Skill.updatedAt M365Skill.usageCount M365Skill.isBuiltin].
  split; [done|]. split; [apply truthy_nonempty, truthy_uuid_text|].
  split_and!; try done.
  - intros Hle. eauto.
  - split; [by intros -> | congruence].
  - by intros ->.
  - by intros b ->.
  - unfold SkillStorage.get. simpl. by rewrite lookup_insert_eq.
Qed.

(** The creation of [testSkill] on an empty directory. *)
Lemma save_creates_witness :
  ∃ saved w' k,
    SkillStorage.save testSkill fresh_world = (saved, Ok saved, w')
    ∧ M365Skill.id saved = Some k ∧ k ≠ ""
    ∧ M365Skill.usageCount saved = Num 0
    ∧ M365Skill.isBuiltin saved = Some false
    ∧ SkillStorage.get k w' = Some saved.
Proof.
  destruct (save_creates testSkill fresh_world)
    as (saved & w' & k & Hs & Hid & Hk & _ & _ & _ & _ & Hu & Hb & _ & Hg);
    [reflexivity | reflexivity | reflexivity | reflexivity | by eexists |].
  exists saved, w', k. split_and!; try done. by apply Hb.
Defined.

(** C2, as stated, fails: when the clock advances by a millisecond
    between the two readings of [save], a valid creation returns a
    record whose [createdAt] and [updatedAt] differ. *)
Lemma save_created_then_updated :
  truthy (M365Skill.id testSkill) = false
  ∧ complete testSkill
  ∧ ∃ saved w',
      SkillStorage.save testSkill fresh_world = (saved, Ok saved, w')
      ∧ M365Skill.createdAt saved = Some 1762041600000
      ∧ M365Skill.updatedAt saved = Some 1762041600001
      ∧ M365Skill.createdAt saved ≠ M365Skill.updatedAt saved.
Proof.
  assert (complete testSkill) as Hc.
  { unfold complete, testSkill. simpl. split_and!; eauto. }
  split; [reflexivity|]. split; [exact Hc|].
  eexists _, _. split; [by apply save_new|]. by split_and!.
Qed.

(** C3. A [save] of a record in which [name], [description], [code] or
    [category] is missing (or empty) throws the validation error and
    writes nothing: the files, every [get] and every [list] are what
    they were before the call. *)
Theorem save_rejects_incomplete (skill : M365Skill) (w : World) :
  truthy (M365Skill.name skill) = false
  ∨ truthy (M365Skill.description skill) = false
  ∨ truthy (M365Skill.code skill) = false
  ∨ M365Skill.category skill = None →
  ∃ skill' w',
    SkillStorage.save skill w
    = (skill', Throw (Error SkillStorage.missing_fields), w')
    ∧ files w' = files w
    ∧ (∀ id, SkillStorage.get id w' = SkillStorage.get id w)
    ∧ (∀ filters, SkillStorage.list filters w' = SkillStorage.list filters w).
Proof.
  intros Hmiss.
  destruct (save_incomplete skill w) as (skill' & w' & Hs & Hf & _).
  { intros (Hn & Hd & Hc & Hcat).
    destruct Hmiss as [H | [H | [H | H]]]; try congruence.
    rewrite H in Hcat. by destruct Hcat. }
  exists skill', w'. split_and!; [done | done | |].
  - intros id. unfold SkillStorage.get. by rewrite Hf.
  - intros filters. unfold SkillStorage.list, SkillStorage.readdir.
    by rewrite Hf.
Qed.

(** A record without code is rejected and the directory is unchanged. *)
Lemma save_rejects_incomplete_witness :
  ∃ skill' w',
    SkillStorage.save incompleteSkill fresh_world
    = (skill', Throw (Error SkillStorage.missing_fields), w')
    ∧ files w' = files fresh_world.
Proof.
  destruct (save_rejects_incomplete
              incompleteSkill fresh_world)
    as (skill' & w' & Hs & Hf & _).
  - right. right. left. reflexivity.
  - by exists skill', w'.
Defined.

(** ** [incrementUsage] *)

Lemma json_counted s n :
  M365Skill.usageCount s = Num n → M365Skill.json s = s.
Proof. destruct s; simpl. intros ->. reflexivity. Qed.

Lemma round_double_exact m : - 2 ^ 53 ≤ m ≤ 2 ^ 53 → round_double m = m.
Proof.
  intros Hm. unfold round_double.
  destruct (Z.leb_spec (Z.abs m) (2 ^ 53)); [done | lia].
Qed.

Lemma js_incr_exact n : - 2 ^ 53 ≤ n < 2 ^ 53 → js_incr (Num n) = Num (n + 1).
Proof.
  intros Hn. unfold js_incr. simpl. f_equal. apply round_double_exact. lia.
Qed.

(** At 2^53 the counter stays where it is; beyond, it moves by the
    spacing of the doubles or not at all. *)
Example js_incr_at_2_53 :
  js_incr (Num 9007199254740992) = Num 9007199254740992.
Proof. reflexivity. Qed.

Example js_incr_beyond_2_53 :
  js_incr (Num 9007199254740994) = Num 9007199254740996
  ∧ js_incr (Num 18014398509481984) = Num 18014398509481984.
Proof. split; reflexivity. Qed.

Example js_incr_no_number :
  js_incr Undefined = NaN ∧ js_incr Null = Num 1 ∧ js_incr NaN = NaN.
Proof. by split_and!. Qed.

(** What [incrementUsage] writes, whatever the counter holds. *)
Lemma incrementUsage_written id w s :
  SkillStorage.get id w = Some s →
  stored_ok id s →
  let s' :=
    M365Skill.json
      (M365Skill.set_updatedAt (Some (clock w (reads w)))
         (M365Skill.set_usageCount (js_incr (M365Skill.usageCount s)) s)) in
  SkillStorage.incrementUsage id w
  = (Ok tt,
     mkWorld (<[id := s']> (files w)) (clock w) (S (reads w))
             (entropy w) (draws w) (BUILTIN_SKILLS w)).
Proof.
  intros Hg (Hid & Hk & Hn & Hd & Hc & Hcat) s'.
  unfold SkillStorage.incrementUsage. rewrite Hg.
  rewrite (save_existing _ w id).
  - reflexivity.
  - by destruct s.
  - by rewrite <- Hid.
  - by destruct s.
Qed.

Lemma incrementUsage_stored id w s n :
  SkillStorage.get id w = Some s →
  stored_ok id s →
  M365Skill.usageCount s = Num n →
  - 2 ^ 53 ≤ n < 2 ^ 53 →
  let s' :=
    M365Skill.set_updatedAt (Some (clock w (reads w)))
      (M365Skill.set_usageCount (Num (n + 1)) s) in
  SkillStorage.incrementUsage id w
  = (Ok tt,
     mkWorld (<[id := s']> (files w)) (clock w) (S (reads w))
             (entropy w) (draws w) (BUILTIN_SKILLS w)).
Proof.
  intros Hg Hok Hu Hn s'.
  rewrite (incrementUsage_written id w s Hg Hok). cbv zeta.
  rewrite Hu, (js_incr_exact n Hn). by rewrite (json_counted _ (n + 1)).
Qed.

(** C7, as amended. For an identifier under which a record is stored,
    with a whole number from -2^53 to 2^53 - 1 as its [usageCount],
    [incrementUsage] succeeds and a following [get] sees that number
    plus one, the record still being a well-formed stored record; the
    other files are untouched. For an identifier with no stored record
    the call succeeds and changes nothing. *)
Theorem incrementUsage_adds_one (id : string) (w : World) :
  (∀ s n,
     SkillStorage.get id w = Some s →
     stored_ok id s →
     M365Skill.usageCount s = Num n →
     - 2 ^ 53 ≤ n < 2 ^ 53 →
     ∃ w' s',
       SkillStorage.incrementUsage id w = (Ok tt, w')
       ∧ SkillStorage.get id w' = Some s'
       ∧ M365Skill.usageCount s' = Num (n + 1)
       ∧ stored_ok id s'
       ∧ (∀ other, other ≠ id →
                   SkillStorage.get other w' = SkillStorage.get other w))
  ∧ (SkillStorage.get id w = None →
     SkillStorage.incrementUsage id w = (Ok tt, w)).
Proof.
  split.
  - intros s n Hg Hok Hu Hn.
    pose proof (incrementUsage_stored id w s n Hg Hok Hu Hn) as Hi.
    cbv zeta in Hi. eexists _, _. split; [exact Hi|].
    unfold SkillStorage.get. cbn [files]. split_and!.
    + apply lookup_insert_eq.
    + by destruct s.
    + by destruct s.
    + intros other Hne. by apply lookup_insert_ne.
  - intros Hg. unfold SkillStorage.incrementUsage. by rewrite Hg.
Qed.

(** One increment of a stored skill, and one of an unknown identifier. *)
Lemma incrementUsage_adds_one_witness :
  SkillStorage.get "id-c" sample_world = Some agenda
  ∧ stored_ok "id-c" agenda
  ∧ M365Skill.usageCount agenda = Num 5
  ∧ - 2 ^ 53 ≤ 5 < 2 ^ 53
  ∧ (∃ w' s',
       SkillStorage.incrementUsage "id-c" sample_world = (Ok tt, w')
       ∧ SkillStorage.get "id-c" w' = Some s'
       ∧ M365Skill.usageCount s' = Num 6)
  ∧ SkillStorage.get "id-z" sample_world = None
  ∧ SkillStorage.incrementUsage "id-z" sample_world = (Ok tt, sample_world).
Proof.
  assert (stored_ok "id-c" agenda) as Hok by (repeat split; eauto).
  assert (- 2 ^ 53 ≤ 5 < 2 ^ 53) as Hn by lia.
  split; [reflexivity|]. split; [exact Hok|]. split; [reflexivity|].
  split; [exact Hn|].
  destruct (incrementUsage_adds_one "id-c" sample_world) as [Hstored _].
  destruct (incrementUsage_adds_one "id-z" sample_world) as [_ Hmissing].
  split.
  - destruct (Hstored agenda 5 eq_refl Hok eq_refl Hn)
      as (w' & s' & Hi & Hg & Hu & _).
    by exists w', s'.
  - split; [reflexivity | by apply Hmissing].
Defined.

(** C7, as stated, fails on two stored records. The first was saved
    with an identifier of its own and no [usageCount]: [save] then
    writes none, [usageCount++] gives [NaN], and the file holds [null].
    The second has reached 2^53, where adding one gives 2^53 again. *)
Lemma incrementUsage_not_always_one :
  (SkillStorage.save uncounted fresh_world).1.2 = Ok resaved
  ∧ SkillStorage.get "id-u" resaved_world = Some resaved
  ∧ M365Skill.usageCount resaved = Undefined
  ∧ (∃ w',
       SkillStorage.incrementUsage "id-u" resaved_world = (Ok tt, w')
       ∧ M365Skill.usageCount <$> SkillStorage.get "id-u" w' = Some Null)
  ∧ SkillStorage.get "id-s" saturated_world = Some saturated
  ∧ M365Skill.usageCount saturated = Num (2 ^ 53)
  ∧ (∃ w',
       SkillStorage.incrementUsage "id-s" saturated_world = (Ok tt, w')
       ∧ M365Skill.usageCount <$> SkillStorage.get "id-s" w'
         = Some (Num (2 ^ 53))).
Proof.
  split_and!; try reflexivity.
  - eexists. split; reflexivity.
  - eexists. split; reflexivity.
Qed.

(** ** Sorting *)

Lemma insert_sorted_perm {A} (after : A → A → bool) x l :
  insert_sorted after x l ≡ₚ x :: l.
Proof.
  induction l as [|y l IH]; simpl; [done|].
  destruct (after x y); [|done]. rewrite IH. apply Permutation_swap.
Qed.

Lemma Array_sort_perm {A} (after : A → A → bool) l :
  Array_sort after l ≡ₚ l.
Proof.
  induction l as [|x l IH]; simpl; [done|].
  by rewrite insert_sorted_perm, IH.
Qed.

Lemma less_used_false a b :
  numeric a → numeric b →
  SkillStorage.less_used a b = false ↔ used_at_least a b.
Proof.
  intros [x Hx] [y Hy]. unfold SkillStorage.less_used, used_at_least.
  rewrite Hx, Hy. simpl. rewrite bool_decide_eq_false. split.
  - intros H. exists x, y. split_and!; [done | done | lia].
  - intros (x' & y' & Hx' & Hy' & Hle). simplify_eq. lia.
Qed.

Lemma used_at_least_trans a b c :
  used_at_least a b → used_at_least b c → used_at_least a c.
Proof.
  intros (x & y & Hx & Hy & Hxy) (y' & z & Hy' & Hz & Hyz).
  rewrite Hy in Hy'. simplify_eq. exists x, z. split_and!; [done | done | lia].
Qed.

Lemma insert_sorted_sorted x l :
  numeric x → Forall numeric l →
  StronglySorted used_at_least l →
  StronglySorted used_at_least (insert_sorted SkillStorage.less_used x l).
Proof.
  intros Hx Hl Hs. induction Hs as [|y l Hs IH Hy]; simpl.
  - repeat constructor.
  - apply Forall_cons in Hl as [Hny Hl].
    destruct (SkillStorage.less_used x y) eqn:Hlt.
    + constructor; [by apply IH|].
      rewrite insert_sorted_perm. constructor; [|done].
      destruct Hx as [a Ha], Hny as [b Hb].
      unfold SkillStorage.less_used in Hlt. rewrite Ha, Hb in Hlt.
      simpl in Hlt. apply bool_decide_eq_true in Hlt.
      exists b, a. split_and!; [done | done | lia].
    + apply less_used_false in Hlt; [|done..].
      constructor; [by constructor|]. constructor; [done|].
      eapply Forall_impl; [exact Hy|]. intros z Hz.
      by eapply used_at_least_trans.
Qed.

Lemma Array_sort_sorted l :
  Forall numeric l →
  StronglySorted used_at_least (Array_sort SkillStorage.less_used l).
Proof.
  induction l as [|x l IH]; simpl; intros Hl; [constructor|].
  apply Forall_cons in Hl as [Hx Hl]. apply insert_sorted_sorted; [done| |auto].
  by rewrite Array_sort_perm.
Qed.

(** ** [list] and [getByName] *)

Lemma elem_of_readdir s w :
  s ∈ SkillStorage.readdir w ↔ ∃ k, files w !! k = Some s.
Proof.
  unfold SkillStorage.readdir. rewrite list_elem_of_fmap. split.
  - intros [[k s'] [-> Hin]]. exists k. by apply elem_of_map_to_list.
  - intros [k Hk]. exists (k, s). split; [done|]. by apply elem_of_map_to_list.
Qed.

Lemma elem_of_filter_bool {A} (f : A → bool) (l : list A) x :
  x ∈ List.filter f l ↔ x ∈ l ∧ f x = true.
Proof. rewrite !list_elem_of_In. apply filter_In. Qed.

Lemma list_perm filters w :
  SkillStorage.list filters w
  ≡ₚ List.filter (SkillStorage.keeps filters) (SkillStorage.readdir w).
Proof. apply Array_sort_perm. Qed.

Lemma elem_of_list filters w s :
  s ∈ SkillStorage.list filters w
  ↔ (∃ k, files w !! k = Some s) ∧ SkillStorage.keeps filters s = true.
Proof. by rewrite list_perm, elem_of_filter_bool, elem_of_readdir. Qed.

Lemma list_sorted filters w :
  counted (files w) →
  StronglySorted used_at_least (SkillStorage.list filters w).
Proof.
  intros Hc. apply Array_sort_sorted, Forall_forall. intros s Hs.
  apply elem_of_filter_bool in Hs as [Hs _].
  apply elem_of_readdir in Hs as [k Hk]. by eapply Hc.
Qed.

Lemma list_sorted_returned filters w :
  (∀ s, s ∈ SkillStorage.list filters w → numeric s) →
  StronglySorted used_at_least (SkillStorage.list filters w).
Proof.
  intros Hc. apply Array_sort_sorted, Forall_forall. intros s Hs.
  apply Hc. by rewrite list_perm.
Qed.

Lemma existsb_elem_of {A} (f : A → bool) (l : list A) :
  existsb f l = true ↔ ∃ x, x ∈ l ∧ f x = true.
Proof.
  rewrite existsb_exists. by setoid_rewrite list_elem_of_In.
Qed.

Lemma keeps_applied f s :
  SkillStorage.keeps (Some f) s = true ↔ satisfies_applied f s.
Proof.
  unfold SkillStorage.keeps, satisfies_applied.
  destruct f as [fc ft fa fp fb]. cbn [SkillFilters.category SkillFilters.tags
    SkillFilters.author SkillFilters.isPublic SkillFilters.isBuiltin].
  assert (∀ (o : option string) (v : option string),
            truthy o && bool_decide (v ≠ o) = false
            ↔ ∀ c, o = Some c → c ≠ "" → v = Some c) as Hstr.
  { intros o v. destruct o as [[|a c]|]; simpl.
    - split; [intros _ c [= <-] Hc; by destruct Hc | done].
    - rewrite bool_decide_eq_false. split.
      + intros H c' [= <-] _. by apply dec_stable.
      + intros H Hn. apply Hn, H; done.
    - split; [intros _ c Hc; discriminate Hc | done]. }
  assert (bool_decide (fp ≠ None) && bool_decide (M365Skill.isPublic s ≠ fp)
          = false
          ↔ ∀ p, fp = Some p → M365Skill.isPublic s = Some p) as Hpub.
  { destruct fp as [p|].
    - rewrite (bool_decide_eq_true_2 (Some p ≠ None)) by done.
      rewrite andb_true_l, bool_decide_eq_false. split.
      + intros H p' [= <-]. by apply dec_stable.
      + intros H Hn. apply Hn, H; done.
    - rewrite (bool_decide_eq_false_2 (None ≠ None)) by (intros H; by apply H).
      rewrite andb_false_l.
      split; [intros _ p Hp; discriminate Hp | done]. }
  assert (match fb with
          | Some wanted =>
              bool_decide
                (bool_decide (M365Skill.isBuiltin s = Some true) ≠ wanted)
          | None => false
          end = false
          ↔ ∀ b, fb = Some b → default false (M365Skill.isBuiltin s) = b)
    as Hbi.
  { destruct fb as [b|].
    - rewrite bool_decide_eq_false. split.
      + intros H b' [= <-]. apply dec_stable in H. rewrite <- H.
        by destruct (M365Skill.isBuiltin s) as [[]|].
      + intros H Hn. apply Hn. rewrite <- (H b eq_refl).
        by destruct (M365Skill.isBuiltin s) as [[]|].
    - split; [intros _ b Hb; discriminate Hb | done]. }
  assert (match ft with
          | Some ftags =>
              negb (existsb
                      (fun tag =>
                         match M365Skill.tags s with
                         | Some stags => bool_decide (tag ∈ stags)
                         | None => false
                         end) ftags)
          | None => false
          end = false
          ↔ ∀ ts, ft = Some ts →
                  ∃ t stags, t ∈ ts ∧ M365Skill.tags s = Some stags ∧ t ∈ stags)
    as Htag.
  { destruct ft as [ts|].
    - rewrite negb_false_iff, existsb_elem_of. split.
      + intros (t & Ht & Hin) ts' [= <-].
        destruct (M365Skill.tags s) as [stags|]; [|done].
        apply bool_decide_eq_true in Hin. eauto.
      + intros H. destruct (H ts eq_refl) as (t & stags & Ht & -> & Hin).
        exists t. split; [done|]. by apply bool_decide_eq_true.
    - split; [intros _ ts Hts; discriminate Hts | done]. }
  rewrite <- (Hstr fc), <- (Hstr fa), <- Hpub, <- Hbi, <- Htag.
  repeat match goal with
         | |- context [if ?b then _ else _] => destruct b
         end; intuition congruence.
Qed.

(** C5, as amended. [list] returns, each as often as it is stored, the
    records that satisfy every applied predicate of the filter bag:
    [category] and [author] by equality when the filter is a non-empty
    string, [isPublic] by equality, [isBuiltin] by equality with an
    absent stored flag read as false, [tags] when a tag of the filter
    is a tag of the record. When the [usageCount] of every returned
    record is a number, the result is sorted by [usageCount], largest
    first. *)
Theorem list_filters_then_sorts (filters : option SkillFilters) (w : World) :
  SkillStorage.list filters w
  ≡ₚ List.filter (SkillStorage.keeps filters) (map_to_list (files w)).*2
  ∧ (∀ s, SkillStorage.keeps filters s = true
          ↔ match filters with
            | Some f => satisfies_applied f s
            | None => True
            end)
  ∧ (∀ s, s ∈ SkillStorage.list filters w
          ↔ (∃ k, files w !! k = Some s)
            ∧ match filters with
              | Some f => satisfies_applied f s
              | None => True
              end)
  ∧ ((∀ s, s ∈ SkillStorage.list filters w → numeric s) →
     StronglySorted used_at_least (SkillStorage.list filters w)).
Proof.
  assert (∀ s, SkillStorage.keeps filters s = true
               ↔ match filters with
                 | Some f => satisfies_applied f s
                 | None => True
                 end) as Hk.
  { intros s. destruct filters as [f|]; [apply keeps_applied | done]. }
  split_and!.
  - apply list_perm.
  - exact Hk.
  - intros s. by rewrite elem_of_list, Hk.
  - apply list_sorted_returned.
Qed.

(** A property of every file of a map written as a chain of inserts. *)
Ltac each_file tac :=
  repeat (apply map_Forall_insert_2; [tac |]); apply map_Forall_empty.

Lemma sample_counted : counted sample_files.
Proof. unfold counted, sample_files. each_file ltac:(by eexists). Qed.

(** The custom mail skills of the sample directory, most used first. *)
Lemma list_filters_then_sorts_witness :
  (∀ s,
     s ∈ SkillStorage.list
           (Some (SkillFilters.mk (Some "mail") None None None (Some false)))
           sample_world →
     numeric s)
  ∧ StronglySorted used_at_least
      (SkillStorage.list
         (Some (SkillFilters.mk (Some "mail") None None None (Some false)))
         sample_world)
  ∧ SkillStorage.list
      (Some (SkillFilters.mk (Some "mail") None None None (Some false)))
      sample_world
    = [dailyReport; weeklyReport].
Proof.
  assert (∀ s,
            s ∈ SkillStorage.list
                  (Some (SkillFilters.mk (Some "mail") None None None
                           (Some false)))
                  sample_world →
            numeric s) as Hnum.
  { intros s Hs. apply elem_of_list in Hs as [[k Hk] _].
    exact (sample_counted k s Hk). }
  split; [exact Hnum|]. split.
  - apply (list_filters_then_sorts
             (Some (SkillFilters.mk (Some "mail") None None None (Some false)))
             sample_world), Hnum.
  - vm_compute. reflexivity.
Defined.

(** C5, as stated, fails: with the filter [{category: ""}] the listing
    returns every record, none of which has the empty category. *)
Lemma list_ignores_empty_category :
  SkillStorage.list (Some (SkillFilters.mk (Some "") None None None None))
                    sample_world
  = [dailyReport; agenda; weeklyReport]
  ∧ ¬ satisfies_present (SkillFilters.mk (Some "") None None None None)
                        dailyReport.
Proof.
  split; [vm_compute; reflexivity|].
  intros (Hc & _). specialize (Hc "" eq_refl). discriminate Hc.
Qed.

Lemma find_first {A} (f : A → bool) (l : list A) x :
  List.find f l = Some x →
  ∃ l1 l2, l = l1 ++ x :: l2 ∧ f x = true ∧ Forall (fun y => f y = false) l1.
Proof.
  induction l as [|a l IH]; simpl; [done|].
  destruct (f a) eqn:Ha.
  - intros [= ->]. exists [], l. by split_and!.
  - intros Hf. destruct (IH Hf) as (l1 & l2 & -> & Hx & Hl1).
    exists (a :: l1), l2. split_and!; [done | done | by constructor].
Qed.

Lemma find_is_Some {A} (f : A → bool) (l : list A) x :
  x ∈ l → f x = true → is_Some (List.find f l).
Proof.
  intros Hin Hx. destruct (List.find f l) eqn:Hf; [by eexists|].
  apply list_elem_of_In in Hin. pose proof (find_none f l Hf x Hin). congruence.
Qed.

Lemma getByName_named name w :
  named name (files w) ↔ is_Some (SkillStorage.getByName name w).
Proof.
  unfold SkillStorage.getByName. split.
  - intros (k & s & Hk & Hn). apply (find_is_Some _ _ s).
    + apply elem_of_list. split; [eauto | done].
    + by apply bool_decide_eq_true.
  - intros [s Hs]. apply find_some in Hs as [Hin Hn].
    apply list_elem_of_In, elem_of_list in Hin as [[k Hk] _].
    apply bool_decide_eq_true in Hn. by exists k, s.
Qed.

(** C10, as amended. When every stored [usageCount] is a number and
    some stored record bears the name, [getByName] returns a stored
    record of that name that has been used at least as often as every
    stored record of that name; when no stored record bears the name it
    returns nothing. *)
Theorem getByName_most_used (name : string) (w : World) :
  counted (files w) →
  (named name (files w) →
   ∃ s, SkillStorage.getByName name w = Some s
        ∧ M365Skill.name s = Some name
        ∧ (∃ k, files w !! k = Some s)
        ∧ ∀ k' s', files w !! k' = Some s' → M365Skill.name s' = Some name →
                   used_at_least s s')
  ∧ (¬ named name (files w) → SkillStorage.getByName name w = None).
Proof.
  intros Hc. split.
  - intros Hnamed. apply getByName_named in Hnamed as [s Hs]. exists s.
    split; [done|]. unfold SkillStorage.getByName in Hs.
    pose proof (list_sorted None w Hc) as Hsorted.
    destruct (find_first _ _ _ Hs) as (l1 & l2 & Hl & Hn & Hl1).
    apply bool_decide_eq_true in Hn.
    assert (s ∈ SkillStorage.list None w) as Hin.
    { rewrite Hl. apply elem_of_app. right. apply list_elem_of_here. }
    apply elem_of_list in Hin as [[k Hk] _].
    split; [done|]. split; [by exists k|].
    intros k' s' Hk' Hn'.
    assert (s' ∈ SkillStorage.list None w) as Hin'.
    { apply elem_of_list. split; [by exists k' | done]. }
    rewrite Hl in Hin', Hsorted.
    apply elem_of_app in Hin' as [Hin' | Hin'].
    + rewrite Forall_forall in Hl1. specialize (Hl1 s' Hin').
      apply bool_decide_eq_false in Hl1. done.
    + apply elem_of_cons in Hin' as [-> | Hin'].
      * destruct (Hc k s Hk) as [n Hu]. exists n, n. split_and!; [done|done|lia].
      * apply StronglySorted_app_1_r in Hsorted.
        apply StronglySorted_inv in Hsorted as [_ Hall].
        rewrite Forall_forall in Hall. by apply Hall.
  - intros Hn. destruct (SkillStorage.getByName name w) eqn:Hg; [|done].
    exfalso. apply Hn, getByName_named. by rewrite Hg.
Qed.

(** Two skills are called [report]; the one used most is returned. *)
Lemma getByName_most_used_witness :
  counted (files sample_world)
  ∧ named "report" (files sample_world)
  ∧ ∃ s, SkillStorage.getByName "report" sample_world = Some s
         ∧ used_at_least s weeklyReport ∧ used_at_least s dailyReport.
Proof.
  assert (named "report" (files sample_world)) as Hn.
  { exists "id-a", weeklyReport. by split. }
  split; [exact sample_counted|]. split; [exact Hn|].
  destruct (getByName_most_used "report" sample_world sample_counted)
    as [Hfound _].
  destruct (Hfound Hn) as (s & Hs & _ & _ & Hmax). exists s.
  split; [done|]. split.
  - by apply (Hmax "id-a").
  - by apply (Hmax "id-b").
Defined.

(** C10, as stated, fails on a store that holds a record without
    [usageCount]: against that record the comparator of [sort] gives
    [NaN], which [sort] reads as no order between the two, so the three
    records stay in the order of the directory, and [getByName] returns
    the skill used once although one of the same name used three times
    is stored. *)
Lemma getByName_not_most_used :
  store_ok mixed_files
  ∧ SkillStorage.readdir mixed_world = [seldom; draft; often]
  ∧ SkillStorage.list None mixed_world = [seldom; draft; often]
  ∧ SkillStorage.getByName "digest" mixed_world = Some seldom
  ∧ M365Skill.usageCount seldom = Num 1
  ∧ SkillStorage.get "id-2" mixed_world = Some often
  ∧ M365Skill.name often = Some "digest"
  ∧ M365Skill.usageCount often = Num 3.
Proof.
  split.
  - unfold store_ok, mixed_files. each_file ltac:(by repeat split; eauto).
  - split_and!; vm_compute; reflexivity.
Qed.

Example getByName_report :
  SkillStorage.getByName "report" sample_world = Some dailyReport.
Proof. vm_compute. reflexivity. Qed.

(** ** The invariant of the store *)

Lemma complete_or_not s : complete s ∨ ¬ complete s.
Proof.
  unfold complete.
  destruct (truthy (M365Skill.name s)); [|right; intros (? & _); done].
  destruct (truthy (M365Skill.description s));
    [|right; intros (_ & ? & _); done].
  destruct (truthy (M365Skill.code s)); [|right; intros (_ & _ & ? & _); done].
  destruct (M365Skill.category s) as [c|].
  - left. split_and!; eauto.
  - right. intros (_ & _ & _ & [c Hc]). discriminate Hc.
Qed.

Lemma store_ok_empty : store_ok ∅.
Proof. intros k s Hk. by rewrite lookup_empty in Hk. Qed.

Lemma store_ok_insert k s m :
  stored_ok k s → store_ok m → store_ok (<[k := s]> m).
Proof.
  intros Hs Hm k' s' Hk'. apply lookup_insert_Some in Hk' as [[<- <-] | [_ Hk']].
  - done.
  - by apply Hm.
Qed.

Lemma save_store_ok skill w :
  store_ok (files w) → store_ok (files (SkillStorage.save skill w).2).
Proof.
  intros Hok. destruct (complete_or_not skill) as [Hc | Hc].
  - destruct (truthy (M365Skill.id skill)) eqn:Hid.
    + destruct (M365Skill.id skill) as [k|] eqn:Hk; [|done].
      rewrite (save_existing skill w k Hk Hid Hc). cbn [snd files].
      apply store_ok_insert; [|done].
      destruct Hc as (Hn & Hd & Hcode & Hcat).
      destruct skill; simpl in *. subst. by repeat split.
    + rewrite (save_new skill w Hid Hc). cbn [snd files].
      apply store_ok_insert; [|done].
      destruct Hc as (Hn & Hd & Hcode & Hcat).
      unfold stored_ok, created.
      cbn [M365Skill.id M365Skill.name M365Skill.description M365Skill.code
           M365Skill.category].
      split_and!; first [done | apply truthy_uuid_text].
  - destruct (save_incomplete skill w Hc) as (s' & w' & -> & Hf & _).
    cbn [snd]. by rewrite Hf.
Qed.

Lemma delete_store_ok id w :
  store_ok (files w) → store_ok (files (SkillStorage.delete id w).2).
Proof.
  intros Hok. unfold SkillStorage.delete.
  destruct (files w !! id) eqn:Hid; [|done]. cbn [snd set_files files].
  intros k s Hk. apply lookup_delete_Some in Hk as [_ Hk]. by apply Hok.
Qed.

Lemma incrementUsage_store_ok id w :
  store_ok (files w) → store_ok (files (SkillStorage.incrementUsage id w).2).
Proof.
  intros Hok. unfold SkillStorage.incrementUsage.
  destruct (SkillStorage.get id w) as [s|]; [|done].
  pose proof (save_store_ok
                (M365Skill.set_usageCount (js_incr (M365Skill.usageCount s)) s)
                w Hok) as Hs.
  destruct (SkillStorage.save _ w) as [[s' r] w']. done.
Qed.

Lemma load_each_store_ok defs n w :
  store_ok (files w) → store_ok (files (load_each defs n w).2).
Proof.
  revert n w. induction defs as [|d rest IH]; intros n w Hok; [done|].
  cbn [load_each].
  destruct (match M365Skill.name d with
            | Some name =>
                if truthy (Some name) then SkillStorage.getByName name w
                else None
            | None => None
            end).
  - specialize (IH n w Hok). destruct (load_each rest n w) as [[? ?] ?]. done.
  - pose proof (save_store_ok d w Hok) as Hs.
    destruct (SkillStorage.save d w) as [[d' r] w'].
    specialize (IH (match r with Ok _ => S n | Throw _ => n end) w' Hs).
    destruct (load_each rest _ w') as [[? ?] ?]. done.
Qed.

Lemma loadBuiltinSkills_store_ok w :
  store_ok (files w) → store_ok (files (loadBuiltinSkills w).2).
Proof.
  intros Hok. unfold loadBuiltinSkills.
  pose proof (load_each_store_ok (BUILTIN_SKILLS w) 0 w Hok) as Hl.
  destruct (load_each (BUILTIN_SKILLS w) 0 w) as [[defs n] w']. done.
Qed.

Lemma save_counted skill w :
  counted (files w) →
  truthy (M365Skill.id skill) = false ∨ numeric skill →
  counted (files (SkillStorage.save skill w).2).
Proof.
  intros Hc Hnum. destruct (complete_or_not skill) as [Hcomp | Hcomp].
  - destruct (truthy (M365Skill.id skill)) eqn:Hid.
    + destruct (M365Skill.id skill) as [k|] eqn:Hk; [|done].
      destruct Hnum as [? | [n Hn]]; [done|].
      rewrite (save_existing skill w k Hk Hid Hcomp). cbn [snd files].
      intros k' s' Hk'. apply lookup_insert_Some in Hk' as [[_ <-] | [_ Hk']].
      * exists n. destruct skill; simpl in *. by rewrite Hn.
      * by eapply Hc.
    + rewrite (save_new skill w Hid Hcomp). cbn [snd files].
      intros k' s' Hk'. apply lookup_insert_Some in Hk' as [[_ <-] | [_ Hk']].
      * by exists 0.
      * by eapply Hc.
  - destruct (save_incomplete skill w Hcomp) as (s' & w' & -> & Hf & _).
    cbn [snd]. by rewrite Hf.
Qed.

Lemma incrementUsage_counted id w :
  store_ok (files w) → counted (files w) →
  counted (files (SkillStorage.incrementUsage id w).2).
Proof.
  intros Hok Hc. destruct (SkillStorage.get id w) as [s|] eqn:Hg.
  - destruct (Hc id s Hg) as [n Hn].
    rewrite (incrementUsage_written id w s Hg (Hok id s Hg)).
    cbn [snd files]. intros k s' Hk.
    apply lookup_insert_Some in Hk as [[<- <-] | [_ Hk]].
    + exists (round_double (n + 1)). destruct s; simpl in *. by rewrite Hn.
    + by eapply Hc.
  - unfold SkillStorage.incrementUsage. by rewrite Hg.
Qed.

Lemma sample_store_ok : store_ok sample_files.
Proof.
  unfold store_ok, sample_files. each_file ltac:(by repeat split; eauto).
Qed.

(** ** The handler of [delete-m365-skill] *)

(** C8. For a stored record, the handler of [delete-m365-skill] refuses
    with an error and leaves the record in place when [isBuiltin] is
    true; otherwise it removes the record, a following [get] finds
    nothing, and the other files are untouched. *)
Theorem delete_m365_skill_protects_builtins
    (skillId : string) (w : World) (skill : M365Skill) :
  SkillStorage.get skillId w = Some skill →
  (M365Skill.isBuiltin skill = Some true →
   delete_m365_skill skillId w = (ToolError "Cannot delete built-in skills", w)
   ∧ SkillStorage.get skillId (delete_m365_skill skillId w).2 = Some skill)
  ∧ (M365Skill.isBuiltin skill ≠ Some true →
     ∃ w',
       delete_m365_skill skillId w = (DeleteSuccess skillId, w')
       ∧ SkillStorage.get skillId w' = None
       ∧ (∀ other, other ≠ skillId →
                   SkillStorage.get other w' = SkillStorage.get other w)).
Proof.
  intros Hg. unfold delete_m365_skill. rewrite Hg. split.
  - intros Hb. rewrite (bool_decide_eq_true_2 _ Hb). by split.
  - intros Hb. rewrite (bool_decide_eq_false_2 _ Hb).
    unfold SkillStorage.delete. unfold SkillStorage.get in Hg. rewrite Hg.
    simpl. eexists. split; [done|]. unfold SkillStorage.get. cbn [files].
    split.
    + apply lookup_delete_eq.
    + intros other Hne. by apply lookup_delete_ne.
Qed.

(** Deleting a built-in skill is refused, deleting a custom one works. *)
Lemma delete_m365_skill_protects_builtins_witness :
  SkillStorage.get "id-c" sample_world = Some agenda
  ∧ M365Skill.isBuiltin agenda = Some true
  ∧ delete_m365_skill "id-c" sample_world
    = (ToolError "Cannot delete built-in skills", sample_world)
  ∧ SkillStorage.get "id-a" sample_world = Some weeklyReport
  ∧ M365Skill.isBuiltin weeklyReport ≠ Some true
  ∧ ∃ w', delete_m365_skill "id-a" sample_world = (DeleteSuccess "id-a", w')
          ∧ SkillStorage.get "id-a" w' = None.
Proof.
  destruct (delete_m365_skill_protects_builtins "id-c" sample_world agenda
              eq_refl) as [Hrefused _].
  destruct (delete_m365_skill_protects_builtins "id-a" sample_world
              weeklyReport eq_refl) as [_ Hdeleted].
  split; [reflexivity|]. split; [reflexivity|].
  split; [by apply Hrefused|]. split; [reflexivity|]. split; [done|].
  destruct (Hdeleted ltac:(done)) as (w' & Hd & Hg & _). by exists w'.
Defined.

(** ** The handler of [execute-m365-skill] *)

Lemma or_default_idem timeout :
  or_default (Some (or_default timeout)) = or_default timeout.
Proof.
  unfold or_default. destruct timeout as [[|p|p]|]; reflexivity.
Qed.

Lemma resolves_stored skillId w skill :
  store_ok (files w) →
  resolves skillId w skill →
  SkillStorage.get (SkillStorage.file_key skill) w = Some skill
  ∧ stored_ok (SkillStorage.file_key skill) skill.
Proof.
  intros Hok [Hg | [_ Hg]].
  - pose proof (Hok _ _ Hg) as Hs. destruct Hs as [Hid Hrest].
    unfold SkillStorage.file_key. rewrite Hid. simpl. split; [done|].
    by split.
  - apply find_some in Hg as [Hin _].
    apply list_elem_of_In, elem_of_list in Hin as [[k Hk] _].
    pose proof (Hok _ _ Hk) as Hs. destruct Hs as [Hid Hrest].
    unfold SkillStorage.file_key. rewrite Hid. simpl. split; [done|].
    by split.
Qed.

(** C4, as amended. Let the skill be resolved, by identifier or else by
    name, in a store written by [save]. If running the script throws (a
    time-out included), the handler gives what its [catch] block makes
    of the thrown value, and the files, so the stored [usageCount], are
    unchanged. If the script returns a value, the stored record then
    holds the loaded [usageCount] plus one (as [JSON] keeps it) and the
    other files are untouched; the answer reports that count when the
    returned value can be printed, and is what the [catch] block makes
    of the failure when it cannot. For a whole number [n] from -2^53 to
    2^53 - 1 as the loaded [usageCount], that count is [n + 1]. *)
Theorem execute_m365_skill_counts_on_return
    (runInContext : string → Z → Outcome)
    (skillId : string) (skillParams : option string) (timeout : option Z)
    (w : World) (skill : M365Skill) :
  store_ok (files w) →
  resolves skillId w skill →
  (∀ thrown,
     runInContext (wrap_async (wrap_params skillParams skill))
                  (or_default timeout) = Threw thrown →
     ∃ w',
       execute_m365_skill runInContext skillId skillParams timeout w
       = (caught thrown, w')
       ∧ files w' = files w
       ∧ SkillStorage.get (SkillStorage.file_key skill) w' = Some skill)
  ∧ (∀ result,
       runInContext (wrap_async (wrap_params skillParams skill))
                    (or_default timeout) = Returned result →
       ∃ w' executionTime skill',
         execute_m365_skill runInContext skillId skillParams timeout w
         = (match result with
            | Prints json =>
                Executed (M365Skill.name skill) (M365Skill.id skill)
                  (json_number (js_incr (M365Skill.usageCount skill)))
                  executionTime json
            | PrintThrows thrown => caught thrown
            end, w')
         ∧ SkillStorage.get (SkillStorage.file_key skill) w' = Some skill'
         ∧ M365Skill.usageCount skill'
           = json_number (js_incr (M365Skill.usageCount skill))
         ∧ (∀ other, other ≠ SkillStorage.file_key skill →
                     SkillStorage.get other w' = SkillStorage.get other w))
  ∧ (∀ n,
       M365Skill.usageCount skill = Num n →
       - 2 ^ 53 ≤ n < 2 ^ 53 →
       json_number (js_incr (M365Skill.usageCount skill)) = Num (n + 1)).
Proof.
  intros Hok Hres.
  destruct (resolves_stored _ _ _ Hok Hres) as [Hget Hstored].
  assert (match SkillStorage.get skillId w with
          | Some skill => Some skill
          | None => SkillStorage.getByName skillId w
          end = Some skill) as Hskill.
  { destruct Hres as [-> | [-> ->]]; done. }
  split_and!.
  - intros thrown Hrun. unfold execute_m365_skill. rewrite Hskill.
    unfold executeM365Code. cbn [Date_now]. rewrite or_default_idem, Hrun.
    eexists. split; [reflexivity|]. by split.
  - intros result Hrun. unfold execute_m365_skill. rewrite Hskill.
    unfold executeM365Code. cbn [Date_now]. rewrite or_default_idem, Hrun.
    cbn [Date_now reads clock files entropy draws BUILTIN_SKILLS].
    erewrite (incrementUsage_written _ _ skill); [|exact Hget|exact Hstored].
    cbv zeta. eexists _, _, _. split; [by destruct result|].
    unfold SkillStorage.get. cbn [files]. rewrite lookup_insert_eq.
    split; [reflexivity|]. split; [by destruct skill|].
    intros other Hne. by apply lookup_insert_ne.
  - intros n Hu Hn. by rewrite Hu, (js_incr_exact n Hn).
Qed.

(** A run of the skill [agenda], resolved by name, that returns 3. *)
Lemma execute_m365_skill_counts_on_return_witness :
  store_ok (files sample_world)
  ∧ resolves "agenda" sample_world agenda
  ∧ ∃ w' executionTime skill',
      execute_m365_skill (fun _ _ => Returned (Prints (Some "3")))
                         "agenda" None (Some 1000) sample_world
      = (Executed (Some "agenda") (Some "id-c") (Num 6) executionTime
           (Some "3"), w')
      ∧ SkillStorage.get "id-c" w' = Some skill'
      ∧ M365Skill.usageCount skill' = Num 6.
Proof.
  assert (resolves "agenda" sample_world agenda) as Hres.
  { right. split; vm_compute; reflexivity. }
  split; [exact sample_store_ok|]. split; [exact Hres|].
  destruct (execute_m365_skill_counts_on_return
              (fun _ _ => Returned (Prints (Some "3"))) "agenda" None
              (Some 1000) sample_world agenda sample_store_ok Hres)
    as (_ & Hret & Hnum).
  destruct (Hret (Prints (Some "3")) eq_refl)
    as (w' & executionTime & skill' & He & Hg & Hu & _).
  rewrite (Hnum 5 eq_refl ltac:(lia)) in He, Hu.
  exists w', executionTime, skill'.
  split; [exact He|]. split; [exact Hg | exact Hu].
Defined.

(** C4, as stated, fails on a run of [agenda], loaded with
    [usageCount] 5, that returns a BigInt: the counter is incremented,
    then printing the answer throws the [TypeError] of
    [JSON.stringify], and the answer is the error answer, which reports
    no [usageCount]; the stored counter is 6. *)
Lemma execute_m365_skill_counts_then_fails :
  resolves "agenda" sample_world agenda
  ∧ M365Skill.usageCount agenda = Num 5
  ∧ (execute_m365_skill returns_bigint "agenda" None None sample_world).1
    = Failed (AnError "Do not know how to serialize a BigInt")
  ∧ M365Skill.usageCount
      <$> SkillStorage.get "id-c"
            (execute_m365_skill returns_bigint "agenda" None None
                                sample_world).2
    = Some (Num 6).
Proof.
  split; [right; split; vm_compute; reflexivity|].
  split; [reflexivity|]. split; vm_compute; reflexivity.
Qed.

(** ** [loadBuiltinSkills] *)

Lemma named_insert_fresh nm k s m :
  m !! k = None → named nm m → named nm (<[k := s]> m).
Proof.
  intros Hk (k' & s' & Hk' & Hn). exists k', s'. split; [|done].
  rewrite lookup_insert_ne; [done|]. intros ->. congruence.
Qed.


Lemma next_ids_S n w :
  next_ids (S n) w
  = uuid_text (entropy w (draws w))
    :: ((fun i => uuid_text (entropy w i)) <$> seq (S (draws w)) n).
Proof. reflexivity. Qed.

Lemma next_ids_snoc n w :
  next_ids (S n) w
  = next_ids n w ++ [uuid_text (entropy w (draws w + n))].
Proof. unfold next_ids. by rewrite seq_S, fmap_app. Qed.

Lemma fresh_keys_skip d rest w :
  fresh_keys (d :: rest) w → fresh_keys rest w.
Proof.
  unfold fresh_keys, candidate_keys. intros [Hnd Hnone].
  cbn [omap list_omap length] in Hnd, Hnone. rewrite next_ids_snoc in Hnd, Hnone.
  assert (∀ k, k ∈ omap own_id rest ++ next_ids (length rest) w →
               k ∈ from_option (fun k => [k]) [] (own_id d)
                   ++ (omap own_id rest ++ next_ids (length rest) w)
                   ++ [uuid_text (entropy w (draws w + length rest))]) as Hsub.
  { intros k Hk. apply elem_of_app. right. apply elem_of_app. by left. }
  assert (match own_id d with
          | Some y => y :: omap own_id rest
          | None => omap own_id rest
          end ++ next_ids (length rest) w
               ++ [uuid_text (entropy w (draws w + length rest))]
          = from_option (fun k => [k]) [] (own_id d)
              ++ (omap own_id rest ++ next_ids (length rest) w)
              ++ [uuid_text (entropy w (draws w + length rest))]) as Heq.
  { destruct (own_id d); simpl; by rewrite <- !app_assoc. }
  rewrite Heq in Hnd, Hnone. split.
  - apply NoDup_app in Hnd as (_ & _ & Hnd).
    by apply NoDup_app in Hnd as (Hnd & _ & _).
  - intros k Hk. by apply Hnone, Hsub.
Qed.

Lemma fresh_keys_drawn d rest w s' c r B :
  own_id d = None →
  fresh_keys (d :: rest) w →
  files w !! uuid_text (entropy w (draws w)) = None
  ∧ fresh_keys rest
      (mkWorld (<[uuid_text (entropy w (draws w)) := s']> (files w)) c r
               (entropy w) (S (draws w)) B).
Proof.
  unfold fresh_keys, candidate_keys. intros Hown [Hnd Hnone].
  cbn [omap list_omap length] in Hnd, Hnone. rewrite Hown in Hnd, Hnone.
  rewrite next_ids_S in Hnd, Hnone.
  set (u := uuid_text (entropy w (draws w))) in *.
  set (later := (fun i => uuid_text (entropy w i)) <$> seq (S (draws w))
                                                          (length rest)) in *.
  assert (next_ids (length rest)
            (mkWorld (<[u := s']> (files w)) c r (entropy w) (S (draws w)) B)
          = later) as -> by reflexivity.
  cbn [files].
  apply NoDup_app in Hnd as (Hids & Hdisj & Hnext).
  apply NoDup_cons in Hnext as [Hu Hlater].
  split; [apply Hnone; apply elem_of_app; right; apply list_elem_of_here|].
  split.
  - apply NoDup_app. split_and!; [done | | done].
    intros k Hk Hk'. apply (Hdisj k Hk). by apply list_elem_of_further.
  - intros k Hk. rewrite lookup_insert_ne.
    + apply Hnone. apply elem_of_app in Hk as [Hk | Hk]; apply elem_of_app;
        [by left | right; by apply list_elem_of_further].
    + intros <-. apply elem_of_app in Hk as [Hk | Hk]; [|done].
      apply (Hdisj u Hk). apply list_elem_of_here.
Qed.

Lemma fresh_keys_kept d rest w k s' c r B :
  own_id d = Some k →
  fresh_keys (d :: rest) w →
  files w !! k = None
  ∧ fresh_keys rest
      (mkWorld (<[k := s']> (files w)) c r (entropy w) (draws w) B).
Proof.
  intros Hown Hfresh. pose proof (fresh_keys_skip _ _ _ Hfresh) as [Hnd' Hnone'].
  destruct Hfresh as [Hnd Hnone]. unfold fresh_keys, candidate_keys in *.
  cbn [omap list_omap length] in Hnd, Hnone. rewrite Hown in Hnd, Hnone.
  assert (next_ids (length rest)
            (mkWorld (<[k := s']> (files w)) c r (entropy w) (draws w) B)
          = next_ids (length rest) w) as -> by reflexivity.
  cbn [files]. simpl in Hnd. apply NoDup_cons in Hnd as [Hk Hnd].
  split; [apply Hnone; apply list_elem_of_here|].
  split; [done|].
  intros k' Hk'. rewrite lookup_insert_ne; [by apply Hnone'|].
  intros <-. apply Hk. rewrite next_ids_snoc.
  apply elem_of_app in Hk' as [Hk' | Hk']; apply elem_of_app;
    [by left | right; apply elem_of_app; by left].
Qed.


Lemma complete_name d :
  complete d → ∃ nm, M365Skill.name d = Some nm ∧ truthy (Some nm) = true.
Proof.
  intros (Hn & _). destruct (M365Skill.name d) as [nm|]; [by exists nm | done].
Qed.


Lemma catalogue_complete : Forall complete builtin_catalogue.
Proof.
  unfold builtin_catalogue.
  repeat (apply Forall_cons; split;
          [unfold complete; split_and!;
           first [reflexivity | eexists; reflexivity] |]).
  apply Forall_nil_2.
Qed.

Lemma same_definition_complete d d0 :
  same_definition d d0 → complete d0 → complete d.
Proof.
  intros (Hn & Hd & Hcat & Hc & _) (Hn0 & Hd0 & Hc0 & Hcat0).
  unfold complete. by rewrite Hn, Hd, Hc, Hcat.
Qed.



Lemma fresh_world_keys : fresh_keys (BUILTIN_SKILLS fresh_world) fresh_world.
Proof.
  split.
  - apply (bool_decide_unpack _). vm_compute. exact I.
  - intros k _. apply lookup_empty.
Qed.

Lemma catalogue_same : Forall2 same_definition builtin_catalogue builtin_catalogue.
Proof.
  unfold builtin_catalogue.
  repeat (apply Forall2_cons; split; [by repeat split |]).
  apply Forall2_nil_2.
Qed.


Example loadBuiltinSkills_fresh_count :
  (loadBuiltinSkills fresh_world).1 = 6%nat
  ∧ (loadBuiltinSkills (loadBuiltinSkills fresh_world).2).1 = 0%nat
  ∧ length (SkillStorage.list
              (Some (SkillFilters.mk None None None None (Some true)))
              (loadBuiltinSkills fresh_world).2) = 6%nat.
Proof. vm_compute. done. Qed.

(** * Further properties *)

(** ** Round trips and frames of the store *)

Lemma json_not_NaN s :
  M365Skill.usageCount s ≠ NaN → M365Skill.json s = s.
Proof. destruct s as [? ? ? ? ? ? ? ? ? ? ? u ? ?]. simpl. by destruct u. Qed.

Lemma save_cases skill w :
  (¬ complete skill
   ∧ ∃ skill' w', SkillStorage.save skill w
                  = (skill', Throw (Error SkillStorage.missing_fields), w')
                  ∧ files w' = files w)
  ∨ (complete skill ∧ truthy (M365Skill.id skill) = false
     ∧ SkillStorage.save skill w
       = (created skill w, Ok (created skill w),
          mkWorld (<[uuid_text (entropy w (draws w)) := created skill w]>
                     (files w))
                  (clock w) (S (S (reads w))) (entropy w) (S (draws w))
                  (BUILTIN_SKILLS w)))
  ∨ (complete skill
     ∧ ∃ k, M365Skill.id skill = Some k ∧ truthy (Some k) = true
       ∧ SkillStorage.save skill w
         = (M365Skill.set_updatedAt (Some (clock w (reads w))) skill,
            Ok (M365Skill.set_updatedAt (Some (clock w (reads w))) skill),
            mkWorld (<[k := M365Skill.json
                               (M365Skill.set_updatedAt
                                  (Some (clock w (reads w))) skill)]> (files w))
                    (clock w) (S (reads w)) (entropy w) (draws w)
                    (BUILTIN_SKILLS w))).
Proof.
  destruct (complete_or_not skill) as [Hc | Hc].
  - destruct (truthy (M365Skill.id skill)) eqn:Hid.
    + right. right. split; [done|].
      destruct (M365Skill.id skill) as [k|] eqn:Hk; [|done].
      exists k. split_and!; [done | done |]. by apply save_existing.
    + right. left. split_and!; [done | done |]. by apply save_new.
  - left. split; [done|].
    destruct (save_incomplete skill w Hc) as (s' & w' & Hs & Hf & _). eauto.
Qed.

(** X1. A record that carries the four required fields is saved, and a
    following [get] under its identifier reads it back: as it was
    saved, except that a [usageCount] that is [NaN] is read as [null]. *)
Theorem save_then_get (skill : M365Skill) (w : World) :
  complete skill →
  ∃ saved w',
    SkillStorage.save skill w = (saved, Ok saved, w')
    ∧ SkillStorage.get (SkillStorage.file_key saved) w'
      = Some (M365Skill.json saved)
    ∧ (M365Skill.usageCount saved ≠ NaN →
       SkillStorage.get (SkillStorage.file_key saved) w' = Some saved)
    ∧ (M365Skill.usageCount saved = NaN →
       ∃ read, SkillStorage.get (SkillStorage.file_key saved) w' = Some read
               ∧ M365Skill.usageCount read = Null).
Proof.
  intros Hc. destruct (save_cases skill w) as [[Hn _] | [(_ & Hid & Hs) | (_ & k & Hk & Ht & Hs)]];
    [done | |].
  - eexists _, _. split; [exact Hs|]. unfold SkillStorage.get, SkillStorage.file_key.
    cbn [files created M365Skill.id default from_option].
    rewrite lookup_insert_eq. split_and!; [done | done | done].
  - eexists _, _. split; [exact Hs|]. unfold SkillStorage.get, SkillStorage.file_key.
    cbn [files]. destruct skill; simpl in *. subst. simpl.
    rewrite lookup_insert_eq. split_and!; [done | | ].
    + intros Hu. by destruct usageCount.
    + intros ->. eexists. by split.
Qed.

(** A first save of [testSkill] is read back. *)
Lemma save_then_get_witness :
  complete testSkill
  ∧ ∃ saved w',
      SkillStorage.save testSkill fresh_world = (saved, Ok saved, w')
      ∧ SkillStorage.get (SkillStorage.file_key saved) w'
        = Some (M365Skill.json saved).
Proof.
  assert (complete testSkill) as Hc by (repeat split; eauto).
  split; [exact Hc|].
  destruct (save_then_get testSkill fresh_world Hc)
    as (saved & w' & Hs & Hg & _).
  exists saved, w'. split; [exact Hs | exact Hg].
Defined.

(** X2. [save] writes at most the file named after the identifier the
    record has after the call (its own, or the one drawn for it): every
    other file reads as before, whether the call succeeds or throws. *)
Theorem save_touches_one_file (skill : M365Skill) (w : World) (k : string) :
  k ≠ SkillStorage.file_key (SkillStorage.save skill w).1.1 →
  SkillStorage.get k (SkillStorage.save skill w).2 = SkillStorage.get k w.
Proof.
  intros Hk. unfold SkillStorage.get.
  destruct (save_cases skill w)
    as [(_ & s' & w' & Hs & Hf) | [(_ & Hid & Hs) | (_ & k' & Hk' & Ht & Hs)]];
    rewrite Hs in *; cbn [fst snd files] in *.
  - by rewrite Hf.
  - apply lookup_insert_ne. intros <-. by apply Hk.
  - apply lookup_insert_ne. intros <-. apply Hk.
    unfold SkillStorage.file_key. destruct skill; simpl in *. by subst.
Qed.

(** Saving [testSkill] leaves the file of [agenda] alone. *)
Lemma save_touches_one_file_witness :
  "id-c" ≠ SkillStorage.file_key (SkillStorage.save testSkill sample_world).1.1
  ∧ SkillStorage.get "id-c" (SkillStorage.save testSkill sample_world).2
    = SkillStorage.get "id-c" sample_world.
Proof.
  assert ("id-c"
          ≠ SkillStorage.file_key
              (SkillStorage.save testSkill sample_world).1.1) as Hk.
  { intros Hk. vm_compute in Hk. discriminate Hk. }
  split; [exact Hk|].
  exact (save_touches_one_file testSkill sample_world "id-c" Hk).
Defined.

(** X3. Saving a record that brings a non-empty identifier and the
    required fields is an update: only [updatedAt] is assigned, so the
    identifier, [createdAt], [usageCount] and [isBuiltin] are those of
    the object given, no identifier is drawn, and the file of that
    identifier holds the record. *)
Theorem save_update_keeps (skill : M365Skill) (w : World) (k : string) :
  M365Skill.id skill = Some k →
  k ≠ "" →
  complete skill →
  ∃ saved w',
    SkillStorage.save skill w = (saved, Ok saved, w')
    ∧ saved = M365Skill.set_updatedAt (Some (clock w (reads w))) skill
    ∧ M365Skill.id saved = Some k
    ∧ M365Skill.createdAt saved = M365Skill.createdAt skill
    ∧ M365Skill.usageCount saved = M365Skill.usageCount skill
    ∧ M365Skill.isBuiltin saved = M365Skill.isBuiltin skill
    ∧ M365Skill.updatedAt saved = Some (clock w (reads w))
    ∧ draws w' = draws w
    ∧ SkillStorage.get k w' = Some (M365Skill.json saved).
Proof.
  intros Hid Hk Hc. apply truthy_nonempty in Hk.
  eexists _, _. split; [by apply (save_existing skill w k)|].
  unfold SkillStorage.get. cbn [files draws]. rewrite lookup_insert_eq.
  destruct skill; simpl in *. by split_and!.
Qed.

(** Saving [agenda] again keeps its counter and its creation time. *)
Lemma save_update_keeps_witness :
  M365Skill.id agenda = Some "id-c"
  ∧ "id-c" ≠ ""
  ∧ complete agenda
  ∧ ∃ saved w',
      SkillStorage.save agenda sample_world = (saved, Ok saved, w')
      ∧ M365Skill.createdAt saved = Some 1762041500000
      ∧ M365Skill.usageCount saved = Num 5
      ∧ SkillStorage.get "id-c" w' = Some (M365Skill.json saved).
Proof.
  assert ("id-c" ≠ "") as Hk by discriminate.
  assert (complete agenda) as Hc by (repeat split; eauto).
  split; [reflexivity|]. split; [exact Hk|]. split; [exact Hc|].
  destruct (save_update_keeps agenda sample_world "id-c" eq_refl Hk Hc)
    as (saved & w' & Hs & _ & _ & Hcr & Hu & _ & _ & _ & Hg).
  exists saved, w'.
  split; [exact Hs|]. split; [exact Hcr|]. split; [exact Hu | exact Hg].
Defined.

(** X4. [delete] reports whether a file of that identifier existed;
    after it a [get] of the identifier finds nothing and every other
    file reads as before; a second [delete] reports [false] and changes
    nothing. *)
Theorem delete_twice (id : string) (w : World) :
  let '(first, w1) := SkillStorage.delete id w in
  let '(second, w2) := SkillStorage.delete id w1 in
  (first = true ↔ is_Some (SkillStorage.get id w))
  ∧ SkillStorage.get id w1 = None
  ∧ (∀ other, other ≠ id → SkillStorage.get other w1 = SkillStorage.get other w)
  ∧ (first = false → w1 = w)
  ∧ second = false
  ∧ w2 = w1.
Proof.
  unfold SkillStorage.delete, SkillStorage.get.
  destruct (files w !! id) as [s|] eqn:Hs; cbn [files set_files].
  - rewrite lookup_delete_eq. split_and!.
    + split; [by eexists | done].
    + done.
    + intros other Hne. by apply lookup_delete_ne.
    + done.
    + done.
    + done.
  - rewrite Hs. split_and!; [|done..]. split; [done | by intros [? ?]].
Qed.

(** ** More on [incrementUsage] *)

(** X5. On a stored record, [incrementUsage] succeeds whatever the
    counter holds, and writes the record with two fields changed:
    [usageCount], which becomes the old value plus one as [JSON] keeps
    it, and [updatedAt], which becomes the time of the call. Every other
    field and every other file is as before. *)
Theorem incrementUsage_keeps_the_rest (id : string) (w : World) (s : M365Skill) :
  SkillStorage.get id w = Some s →
  stored_ok id s →
  ∃ w' s',
    SkillStorage.incrementUsage id w = (Ok tt, w')
    ∧ SkillStorage.get id w' = Some s'
    ∧ s' = M365Skill.set_updatedAt (Some (clock w (reads w)))
             (M365Skill.set_usageCount
                (json_number (js_incr (M365Skill.usageCount s))) s)
    ∧ M365Skill.createdAt s' = M365Skill.createdAt s
    ∧ M365Skill.name s' = M365Skill.name s
    ∧ M365Skill.code s' = M365Skill.code s
    ∧ M365Skill.isBuiltin s' = M365Skill.isBuiltin s
    ∧ M365Skill.updatedAt s' = Some (clock w (reads w))
    ∧ (∀ other, other ≠ id →
                SkillStorage.get other w' = SkillStorage.get other w).
Proof.
  intros Hg (Hid & Hk & Hn & Hd & Hc & Hcat).
  unfold SkillStorage.incrementUsage. rewrite Hg.
  rewrite (save_existing _ w id).
  - eexists _, _. split; [reflexivity|]. unfold SkillStorage.get. cbn [files].
    rewrite lookup_insert_eq. split; [reflexivity|].
    split; [by destruct s|]. split_and!; try by destruct s.
    intros other Hne. by apply lookup_insert_ne.
  - by destruct s.
  - by rewrite <- Hid.
  - by destruct s.
Qed.

(** An increment of [agenda] keeps its name and its code. *)
Lemma incrementUsage_keeps_the_rest_witness :
  SkillStorage.get "id-c" sample_world = Some agenda
  ∧ stored_ok "id-c" agenda
  ∧ ∃ w' s',
      SkillStorage.incrementUsage "id-c" sample_world = (Ok tt, w')
      ∧ SkillStorage.get "id-c" w' = Some s'
      ∧ M365Skill.name s' = Some "agenda"
      ∧ M365Skill.code s' = M365Skill.code agenda.
Proof.
  assert (stored_ok "id-c" agenda) as Hok by (repeat split; eauto).
  split; [reflexivity|]. split; [exact Hok|].
  destruct (incrementUsage_keeps_the_rest "id-c" sample_world agenda
              eq_refl Hok)
    as (w' & s' & Hi & Hg & _ & _ & Hn & Hc & _).
  exists w', s'.
  split; [exact Hi|]. split; [exact Hg|]. split; [exact Hn | exact Hc].
Defined.

(** X6. On a stored record that has no [usageCount], the first
    [incrementUsage] leaves [null] in the file and the second leaves 1:
    the first use is not counted. *)
Theorem incrementUsage_without_counter (id : string) (w : World) (s : M365Skill) :
  SkillStorage.get id w = Some s →
  stored_ok id s →
  M365Skill.usageCount s = Undefined →
  ∃ w1 w2 s1 s2,
    SkillStorage.incrementUsage id w = (Ok tt, w1)
    ∧ SkillStorage.get id w1 = Some s1
    ∧ M365Skill.usageCount s1 = Null
    ∧ SkillStorage.incrementUsage id w1 = (Ok tt, w2)
    ∧ SkillStorage.get id w2 = Some s2
    ∧ M365Skill.usageCount s2 = Num 1.
Proof.
  intros Hg Hok Hu.
  pose proof (incrementUsage_written id w s Hg Hok) as Hi1. cbv zeta in Hi1.
  set (s1 := M365Skill.json _) in Hi1. set (w1 := mkWorld _ _ _ _ _ _) in Hi1.
  assert (SkillStorage.get id w1 = Some s1) as Hg1.
  { unfold SkillStorage.get, w1. cbn [files]. apply lookup_insert_eq. }
  assert (stored_ok id s1) as Hok1.
  { unfold s1. destruct Hok as (? & ? & ? & ? & ? & ?).
    destruct s; simpl in *. by repeat split. }
  assert (M365Skill.usageCount s1 = Null) as Hu1.
  { unfold s1. destruct s; simpl in *. by rewrite Hu. }
  pose proof (incrementUsage_written id w1 s1 Hg1 Hok1) as Hi2.
  cbv zeta in Hi2.
  set (s2 := M365Skill.json _) in Hi2. set (w2 := mkWorld _ _ _ _ _ _) in Hi2.
  exists w1, w2, s1, s2. split_and!; [exact Hi1 | exact Hg1 | exact Hu1
                                     | exact Hi2 | |].
  - unfold SkillStorage.get, w2. cbn [files]. apply lookup_insert_eq.
  - unfold s2. destruct s1; simpl in *. by rewrite Hu1.
Qed.

(** The record saved without counter: [null] after one use, 1 after
    two. *)
Lemma incrementUsage_without_counter_witness :
  SkillStorage.get "id-u" resaved_world = Some resaved
  ∧ stored_ok "id-u" resaved
  ∧ M365Skill.usageCount resaved = Undefined
  ∧ ∃ w1 w2 s1 s2,
      SkillStorage.incrementUsage "id-u" resaved_world = (Ok tt, w1)
      ∧ SkillStorage.get "id-u" w1 = Some s1
      ∧ M365Skill.usageCount s1 = Null
      ∧ SkillStorage.incrementUsage "id-u" w1 = (Ok tt, w2)
      ∧ SkillStorage.get "id-u" w2 = Some s2
      ∧ M365Skill.usageCount s2 = Num 1.
Proof.
  assert (SkillStorage.get "id-u" resaved_world = Some resaved) as Hg
    by (vm_compute; reflexivity).
  assert (stored_ok "id-u" resaved) as Hok by (repeat split; eauto).
  split; [exact Hg|]. split; [exact Hok|]. split; [reflexivity|].
  exact (incrementUsage_without_counter "id-u" resaved_world resaved Hg Hok
           eq_refl).
Defined.

(** ** More on [list] and [getByName] *)

Lemma filter_none {A} (f : A → bool) (l : list A) :
  (∀ x, f x = false) → List.filter f l = [].
Proof. intros H. apply filter_nil_iff. auto. Qed.

(** X7. Without filter [list] returns every stored record once, so as
    many records as there are files, and the listing under any filter
    is a part of it. *)
Theorem list_without_filter (w : World) :
  SkillStorage.list None w ≡ₚ (map_to_list (files w)).*2
  ∧ length (SkillStorage.list None w) = size (files w)
  ∧ ∀ filters, SkillStorage.list filters w ⊆+ SkillStorage.list None w.
Proof.
  assert (∀ l : list M365Skill, List.filter (SkillStorage.keeps None) l = l)
    as Hall.
  { induction l as [|x l IH]; simpl; [done | by rewrite IH]. }
  assert (SkillStorage.list None w ≡ₚ (map_to_list (files w)).*2) as Hp.
  { rewrite list_perm. unfold SkillStorage.readdir. by rewrite Hall. }
  split_and!.
  - exact Hp.
  - rewrite Hp, length_fmap. apply length_map_to_list.
  - intros filters. rewrite Hp, list_perm. unfold SkillStorage.readdir.
    generalize ((map_to_list (files w)).*2). intros l.
    induction l as [|x l IH]; simpl; [done|].
    destruct (SkillStorage.keeps filters x).
    + by apply submseteq_skip.
    + by apply submseteq_cons.
Qed.

(** X8. A filter with an empty list of tags returns nothing, and so
    does a filter whose category is a non-empty string other than the
    eight category names. *)
Theorem list_of_nothing (f : SkillFilters) (w : World) :
  (SkillFilters.tags f = Some [] → SkillStorage.list (Some f) w = [])
  ∧ (∀ c, SkillFilters.category f = Some c → c ≠ "" →
          (∀ known, category_name known ≠ c) →
          SkillStorage.list (Some f) w = []).
Proof.
  split.
  - intros Ht. unfold SkillStorage.list. rewrite filter_none; [done|].
    intros s. unfold SkillStorage.keeps. rewrite Ht. simpl.
    repeat match goal with
           | |- context [if ?b then _ else _] => destruct b
           end; done.
  - intros c Hc Hne Hunknown. unfold SkillStorage.list.
    rewrite filter_none; [done|].
    intros s. unfold SkillStorage.keeps. rewrite Hc.
    assert (truthy (Some c) = true) as -> by by apply truthy_nonempty.
    rewrite bool_decide_eq_true_2; [done|].
    destruct (M365Skill.category s) as [known|]; simpl; [|done].
    intros [= H]. by apply (Hunknown known).
Qed.

Lemma category_name_inj : Inj (=) (=) category_name.
Proof. intros c c' H. by destruct c, c'. Qed.

Lemma applied_by_category c s :
  satisfies_applied (by_category c) s ↔ M365Skill.category s = Some c.
Proof.
  unfold satisfies_applied, by_category. simpl. split.
  - intros (Hc & _). specialize (Hc (category_name c) eq_refl).
    destruct (M365Skill.category s) as [c'|]; simpl in Hc.
    + assert (category_name c ≠ "") as Hne by by destruct c.
      specialize (Hc Hne). injection Hc as Hc.
      by apply category_name_inj in Hc as ->.
    + assert (category_name c ≠ "") as Hne by by destruct c.
      by specialize (Hc Hne).
  - intros Hc. split_and!; try done.
    intros c' [= <-] _. by rewrite Hc.
Qed.

Lemma keeps_by_category c s :
  SkillStorage.keeps (Some (by_category c)) s
  = bool_decide (M365Skill.category s = Some c).
Proof.
  destruct (SkillStorage.keeps (Some (by_category c)) s) eqn:Hk; symmetry.
  - apply bool_decide_eq_true. by apply applied_by_category, keeps_applied.
  - apply bool_decide_eq_false. intros Hc.
    apply applied_by_category, keeps_applied in Hc. congruence.
Qed.

Lemma filter_by_key {A B} `{EqDecision B} (key : A → option B)
    (keys : list B) (l : list A) :
  NoDup keys →
  Forall (fun x => ∃ b, key x = Some b ∧ b ∈ keys) l →
  l ≡ₚ concat ((fun b => List.filter (fun x => bool_decide (key x = Some b)) l)
               <$> keys).
Proof.
  intros Hnd. induction l as [|x l IH]; intros Hl.
  - clear. induction keys as [|b keys IH]; [done | by simpl].
  - apply Forall_cons in Hl as [(b & Hb & Hin) Hl]. specialize (IH Hl).
    rewrite IH at 1. clear IH Hl.
    induction keys as [|b' keys IHk]; [by apply elem_of_nil in Hin|].
    apply NoDup_cons in Hnd as [Hb' Hnd]. cbn [fmap list_fmap concat List.filter].
    destruct (decide (b' = b)) as [-> | Hne].
    + rewrite (bool_decide_eq_true_2 _ Hb). simpl.
      apply Permutation_skip. apply Permutation_app_head.
      clear IHk Hin. induction keys as [|b'' keys IHk]; [done|].
      apply NoDup_cons in Hnd as [_ Hnd].
      cbn [fmap list_fmap concat List.filter].
      rewrite bool_decide_eq_false_2.
      * apply Permutation_app_head. apply IHk; [|done].
        intros Hin. apply Hb'. by apply list_elem_of_further.
      * intros H. rewrite Hb in H. injection H as <-. apply Hb'.
        apply list_elem_of_here.
    + rewrite bool_decide_eq_false_2 by (rewrite Hb; congruence).
      apply elem_of_cons in Hin as [-> | Hin]; [done|].
      rewrite <- (IHk Hnd Hin). apply Permutation_middle.
Qed.

(** X9. When every stored record has a category, the listings by the
    eight categories together hold every stored record exactly once. *)
Theorem list_by_category_partitions (w : World) :
  (∀ k s, files w !! k = Some s → is_Some (M365Skill.category s)) →
  SkillStorage.list None w
  ≡ₚ concat ((fun c => SkillStorage.list (Some (by_category c)) w)
             <$> categories).
Proof.
  intros Hcat.
  assert (concat ((fun c => SkillStorage.list (Some (by_category c)) w)
                  <$> categories)
          ≡ₚ concat ((fun c => List.filter
                                 (fun s => bool_decide
                                             (M365Skill.category s = Some c))
                                 (SkillStorage.readdir w))
                     <$> categories)) as ->.
  { unfold categories. cbn [fmap list_fmap concat].
    rewrite !list_perm.
    repeat (apply Permutation_app;
            [erewrite filter_ext; [reflexivity | intros s; apply keeps_by_category]|]).
    done. }
  destruct (list_without_filter w) as [-> _].
  apply filter_by_key.
  - unfold categories. apply (bool_decide_unpack _). vm_compute. exact I.
  - apply Forall_forall. intros s Hs. apply elem_of_readdir in Hs as [k Hk].
    destruct (Hcat k s Hk) as [c Hc]. exists c. split; [done|].
    unfold categories. destruct c; set_solver.
Qed.

(** The sample directory, listed category by category. *)
Lemma list_by_category_partitions_witness :
  (∀ k s, files sample_world !! k = Some s → is_Some (M365Skill.category s))
  ∧ SkillStorage.list None sample_world
    ≡ₚ concat ((fun c => SkillStorage.list (Some (by_category c)) sample_world)
               <$> categories).
Proof.
  assert (∀ k s, files sample_world !! k = Some s →
                 is_Some (M365Skill.category s)) as Hcat.
  { intros k s Hk.
    destruct (sample_store_ok k s Hk) as (_ & _ & _ & _ & _ & Hc). exact Hc. }
  split; [exact Hcat|]. exact (list_by_category_partitions sample_world Hcat).
Defined.



(** ** [search] *)

Lemma Array_filter_total {A} (f : A → Result bool) (g : A → bool) (l : list A) :
  (∀ x, x ∈ l → f x = Ok (g x)) →
  Array_filter f l = Ok (List.filter g l).
Proof.
  induction l as [|x l IH]; intros Hf; [done|].
  cbn [Array_filter List.filter]. rewrite (Hf x (list_elem_of_here _ _)).
  rewrite IH; [by destruct (g x)|].
  intros y Hy. apply Hf. by apply list_elem_of_further.
Qed.

Lemma toLowerCase_unit_idempotent c :
  toLowerCase_unit (toLowerCase_unit c) = toLowerCase_unit c.
Proof.
  destruct c as [[] [] [] [] [] [] [] []]; vm_compute; reflexivity.
Qed.

Lemma toLowerCase_idempotent s : toLowerCase (toLowerCase s) = toLowerCase s.
Proof.
  induction s as [|c s IH]; [done|]. simpl.
  by rewrite toLowerCase_unit_idempotent, IH.
Qed.

Lemma includes_empty s : includes s "" = true.
Proof. by destruct s. Qed.

Lemma search_matches_test query s :
  is_Some (M365Skill.name s) → is_Some (M365Skill.description s) →
  search_matches (toLowerCase query) s = Ok (search_test query s).
Proof.
  intros [n Hn] [d Hd]. unfold search_matches, search_test. rewrite Hn, Hd.
  simpl. destruct (includes (toLowerCase n) (toLowerCase query)); [done|].
  by destruct (includes (toLowerCase d) (toLowerCase query)).
Qed.

Lemma search_test_found query s :
  is_Some (M365Skill.name s) → is_Some (M365Skill.description s) →
  search_test query s = true ↔ found_by query s.
Proof.
  intros [n Hn] [d Hd]. unfold search_test, found_by. rewrite Hn, Hd. simpl.
  rewrite !orb_true_iff, !includes_spec. split.
  - intros [[H | H] | H].
    + left. by exists n.
    + right. left. by exists d.
    + right. right. destruct (M365Skill.tags s) as [ts|]; [|done].
      apply existsb_elem_of in H as (t & Ht & Hi). exists ts, t.
      split_and!; [done | done | by apply includes_spec].
  - intros [(n' & [= <-] & H) | [(d' & [= <-] & H) | (ts & t & Hts & Ht & H)]].
    + by left; left.
    + by left; right.
    + right. rewrite Hts. apply existsb_elem_of. exists t.
      split; [done | by apply includes_spec].
Qed.

Lemma stored_has_text w s :
  store_ok (files w) → s ∈ SkillStorage.list None w →
  is_Some (M365Skill.name s) ∧ is_Some (M365Skill.description s).
Proof.
  intros Hok Hs. apply elem_of_list in Hs as [[k Hk] _].
  destruct (Hok k s Hk) as (_ & _ & Hn & Hd & _).
  split.
  - destruct (M365Skill.name s); [by eexists | done].
  - destruct (M365Skill.description s); [by eexists | done].
Qed.

Lemma search_filter w q :
  store_ok (files w) →
  search q w = Ok (List.filter (search_test q) (SkillStorage.list None w)).
Proof.
  intros Hok. unfold search. apply Array_filter_total. intros s Hs.
  destruct (stored_has_text w s Hok Hs). by apply search_matches_test.
Qed.

(** X11. On a store written by [save], [search] does not throw and
    returns, in the order of [list], the stored records in which the
    query occurs, letters compared without case, in the name, in the
    description or in one of the tags; two queries that differ in case
    only give the same result; when every stored [usageCount] is a
    number the result is sorted by [usageCount], largest first. *)
Theorem search_finds (query : string) (w : World) :
  store_ok (files w) →
  ∃ found,
    search query w = Ok found
    ∧ found = List.filter (search_test query) (SkillStorage.list None w)
    ∧ (∀ s, s ∈ found ↔ s ∈ SkillStorage.list None w ∧ found_by query s)
    ∧ found ⊆+ SkillStorage.list None w
    ∧ (counted (files w) → StronglySorted used_at_least found)
    ∧ (∀ query', toLowerCase query' = toLowerCase query →
                 search query' w = Ok found).
Proof.
  intros Hok.
  pose proof (fun q => search_filter w q Hok) as Hsearch.
  eexists. split; [apply Hsearch|]. split; [done|]. split_and!.
  - intros s. rewrite elem_of_filter_bool. split.
    + intros [Hs Ht]. split; [done|].
      destruct (stored_has_text w s Hok Hs). by apply search_test_found.
    + intros [Hs Hf]. split; [done|].
      destruct (stored_has_text w s Hok Hs). by apply search_test_found.
  - generalize (SkillStorage.list None w). intros l.
    induction l as [|x l IH]; simpl; [done|].
    destruct (search_test query x).
    + by apply submseteq_skip.
    + by apply submseteq_cons.
  - intros Hc. pose proof (list_sorted None w Hc) as Hs. revert Hs.
    generalize (SkillStorage.list None w). intros l Hs.
    induction Hs as [|x l Hs IH Hx]; simpl; [constructor|].
    destruct (search_test query x); [|done].
    constructor; [done|]. apply Forall_forall. intros y Hy.
    apply elem_of_filter_bool in Hy as [Hy _].
    rewrite Forall_forall in Hx. by apply Hx.
  - intros q' Hq. rewrite Hsearch. f_equal. apply filter_ext. intros s.
    unfold search_test. by rewrite Hq.
Qed.

(** The sample directory searched for a word in capitals. *)
Lemma search_finds_witness :
  store_ok (files sample_world)
  ∧ ∃ found,
      search "REPORT" sample_world = Ok found
      ∧ found = List.filter (search_test "REPORT")
                            (SkillStorage.list None sample_world)
      ∧ (∀ query', toLowerCase query' = toLowerCase "REPORT" →
                   search query' sample_world = Ok found).
Proof.
  split; [exact sample_store_ok|].
  destruct (search_finds "REPORT" sample_world sample_store_ok)
    as (found & Hs & Hf & _ & _ & _ & Hq).
  exists found. split; [exact Hs|]. split; [exact Hf | exact Hq].
Defined.

(** X12. On a store written by [save], the empty query finds every
    stored record: [search] then returns what [list] returns. *)
Theorem search_empty_query (w : World) :
  store_ok (files w) →
  search "" w = Ok (SkillStorage.list None w).
Proof.
  intros Hok. rewrite (search_filter w "" Hok).
  f_equal. generalize (SkillStorage.list None w). intros l.
  induction l as [|x l IH]; simpl; [done|].
  unfold search_test at 1. simpl. by rewrite includes_empty, IH.
Qed.

Lemma search_empty_query_witness :
  store_ok (files sample_world)
  ∧ search "" sample_world = Ok (SkillStorage.list None sample_world).
Proof.
  split; [exact sample_store_ok|].
  exact (search_empty_query sample_world sample_store_ok).
Defined.

Example search_ignores_case :
  search "REPORT" sample_world = Ok [dailyReport; weeklyReport]
  ∧ search "Daily" sample_world = Ok [dailyReport; agenda]
  ∧ search "nothing" sample_world = Ok [].
Proof. vm_compute. done. Qed.

(** ** More on the validator *)

Lemma append_assoc (a b c : string) : (a +:+ b) +:+ c = a +:+ b +:+ c.
Proof.
  induction a as [|x a IH]; [done|].
  change (String x ((a +:+ b) +:+ c) = String x (a +:+ b +:+ c)).
  by rewrite IH.
Qed.

Lemma substring_of_trans p s t :
  substring_of p s → substring_of s t → substring_of p t.
Proof.
  intros (l & r & ->) (l' & r' & ->). exists (l' +:+ l), (r +:+ r').
  by rewrite !append_assoc.
Qed.

(** X13. The validator cannot be satisfied by adding text: a code that
    is rejected stays rejected, with at least the same errors, when text
    is put before and after it. *)
Theorem validateCode_rejects_supertexts (code before after : string) :
  valid (validateCode code) = false →
  valid (validateCode (before +:+ code +:+ after)) = false
  ∧ ∀ e, e ∈ errors (validateCode code) →
         e ∈ errors (validateCode (before +:+ code +:+ after)).
Proof.
  intros Hinv.
  assert (∀ p, substring_of p code →
               substring_of p (before +:+ code +:+ after)) as Hsub.
  { intros p Hp. eapply substring_of_trans; [exact Hp|]. by exists before, after. }
  split.
  - rewrite validateCode_valid, bool_decide_eq_false, filter_nil_iff in *.
    intros Hall. apply Hinv. intros p Hp. specialize (Hall p Hp).
    apply includes_false. intros Hs. apply includes_false in Hall.
    by apply Hall, Hsub.
  - intros e. rewrite !validateCode_errors, !list_elem_of_fmap.
    intros (p & -> & Hp). exists p. split; [done|].
    apply elem_of_filter_bool in Hp as [Hp Hi].
    apply elem_of_filter_bool. split; [done|].
    by apply includes_spec, Hsub, includes_spec.
Qed.

Lemma validateCode_rejects_supertexts_witness :
  valid (validateCode "eval(x)") = false
  ∧ valid (validateCode ("let y = " +:+ "eval(x)" +:+ ";")) = false.
Proof.
  assert (valid (validateCode "eval(x)") = false) as Hv
    by (vm_compute; reflexivity).
  split; [exact Hv|].
  destruct (validateCode_rejects_supertexts "eval(x)" "let y = " ";" Hv)
    as [Hs _].
  exact Hs.
Defined.

(** ** The validator and the tools *)

Lemma codes_valid_insert k s m :
  (∀ c, M365Skill.code s = Some c → valid (validateCode c) = true) →
  codes_valid m → codes_valid (<[k := s]> m).
Proof.
  intros Hs Hm k' s' c Hk' Hc.
  apply lookup_insert_Some in Hk' as [[_ <-] | [_ Hk']]; [by apply Hs|].
  by eapply Hm.
Qed.

Lemma save_codes_valid skill w :
  codes_valid (files w) →
  (∀ c, M365Skill.code skill = Some c → valid (validateCode c) = true) →
  codes_valid (files (SkillStorage.save skill w).2).
Proof.
  intros Hv Hc.
  destruct (save_cases skill w)
    as [(_ & s' & w' & Hs & Hf) | [(_ & Hid & Hs) | (_ & k' & Hk' & Ht & Hs)]];
    rewrite Hs; cbn [snd files].
  - by rewrite Hf.
  - by apply codes_valid_insert.
  - apply codes_valid_insert; [|done]. by destruct skill.
Qed.

Lemma load_each_codes_valid defs n w :
  Forall (fun d => ∀ c, M365Skill.code d = Some c →
                        valid (validateCode c) = true) defs →
  codes_valid (files w) →
  codes_valid (files (load_each defs n w).2).
Proof.
  revert n w. induction defs as [|d rest IH]; intros n w Hd Hv; [done|].
  apply Forall_cons in Hd as [Hd Hrest]. cbn [load_each].
  destruct (match M365Skill.name d with
            | Some name =>
                if truthy (Some name) then SkillStorage.getByName name w
                else None
            | None => None
            end).
  - specialize (IH n w Hrest Hv). destruct (load_each rest n w) as [[? ?] ?].
    done.
  - pose proof (save_codes_valid d w Hv Hd) as Hs.
    destruct (SkillStorage.save d w) as [[d' r] w'].
    specialize (IH (match r with Ok _ => S n | Throw _ => n end) w' Hrest Hs).
    destruct (load_each rest _ w') as [[? ?] ?]. done.
Qed.

Lemma catalogue_codes_valid :
  Forall (fun d => ∀ c, M365Skill.code d = Some c →
                        valid (validateCode c) = true) builtin_catalogue.
Proof.
  unfold builtin_catalogue.
  repeat (apply Forall_cons; split;
          [intros c [= <-]; vm_compute; reflexivity |]).
  apply Forall_nil_2.
Qed.

(** X14. If the code of every stored record passes the validator, it
    still does after each of the handlers [create-m365-skill],
    [update-m365-skill], [delete-m365-skill] and [execute-m365-skill],
    and after [loadBuiltinSkills] when the catalogue holds the
    definitions of the source: through these, no forbidden pattern
    reaches the store. *)
Theorem tools_keep_code_valid (w : World) :
  codes_valid (files w) →
  (∀ name description category code parameters tags isPublic,
     codes_valid
       (files (create_m365_skill name description category code parameters
                 tags isPublic w).2))
  ∧ (∀ skillId updates,
       codes_valid (files (update_m365_skill skillId updates w).2))
  ∧ (∀ skillId, codes_valid (files (delete_m365_skill skillId w).2))
  ∧ (∀ runInContext skillId skillParams timeout,
       codes_valid
         (files (execute_m365_skill runInContext skillId skillParams timeout
                   w).2))
  ∧ (Forall2 same_definition (BUILTIN_SKILLS w) builtin_catalogue →
     codes_valid (files (loadBuiltinSkills w).2)).
Proof.
  intros Hv. split_and!.
  - intros name description category code parameters tags isPublic.
    unfold create_m365_skill.
    destruct (valid (validateCode code)) eqn:Hcode; [|done]. cbn [negb].
    destruct (SkillStorage.getByName name w); [done|].
    pose proof (save_codes_valid
                  (new_skill name description category code parameters tags
                     isPublic) w Hv) as Hs.
    destruct (SkillStorage.save _ w) as [[s' r] w'].
    destruct r as [?|[?]]; apply Hs; by intros c [= <-].
  - intros skillId updates. unfold update_m365_skill.
    destruct (SkillStorage.get skillId w) as [skill|] eqn:Hg; [|done].
    destruct (truthy (SkillUpdates.code updates)
              && negb (valid (validateCode
                                (default "" (SkillUpdates.code updates)))))
      eqn:Hcheck; [done|].
    pose proof (save_codes_valid (Object_assign skill updates) w Hv) as Hs.
    destruct (SkillStorage.save _ w) as [[s' r] w'].
    assert (∀ c, M365Skill.code (Object_assign skill updates) = Some c →
                 valid (validateCode c) = true) as Hc.
    { intros c. unfold Object_assign. cbn [M365Skill.code].
      destruct (SkillUpdates.code updates) as [[|a c']|]; cbn [assigned].
      - by intros [= <-].
      - intros [= <-].
        change (negb (valid (validateCode (String a c'))) = false) in Hcheck.
        by apply negb_false_iff in Hcheck.
      - intros Hc. by eapply Hv. }
    destruct r as [?|[?]]; by apply Hs.
  - intros skillId. unfold delete_m365_skill.
    destruct (match SkillStorage.get skillId w with
              | Some skill => bool_decide (M365Skill.isBuiltin skill = Some true)
              | None => false
              end); [done|].
    unfold SkillStorage.delete. destruct (files w !! skillId); [|done].
    cbn [negb snd files set_files]. intros k s c Hk.
    apply lookup_delete_Some in Hk as [_ Hk]. by eapply Hv.
  - intros run skillId skillParams timeout. unfold execute_m365_skill.
    destruct (match SkillStorage.get skillId w with
              | Some skill => Some skill
              | None => SkillStorage.getByName skillId w
              end) as [skill|]; [|done].
    unfold executeM365Code. cbn [Date_now].
    destruct (run _ _) as [v|thrown]; [|done].
    cbn [Date_now reads clock files entropy draws BUILTIN_SKILLS].
    match goal with
    | |- context [SkillStorage.incrementUsage ?key ?world] =>
        set (k := key); set (w0 := world)
    end.
    assert (codes_valid (files (SkillStorage.incrementUsage k w0).2)) as Hi.
    { unfold SkillStorage.incrementUsage.
      destruct (SkillStorage.get k w0) as [s|] eqn:Hg; [|done].
      pose proof (save_codes_valid
                    (M365Skill.set_usageCount
                       (js_incr (M365Skill.usageCount s)) s) w0 Hv) as Hs.
      destruct (SkillStorage.save _ w0) as [[s' r] w']. apply Hs.
      intros c Hc. apply (Hv k s c Hg). by destruct s. }
    clearbody w0.
    destruct (SkillStorage.incrementUsage k w0) as [[?|[?]] w'];
      by destruct v.
  - intros Hsame. unfold loadBuiltinSkills.
    assert (Forall (fun d => ∀ c, M365Skill.code d = Some c →
                                  valid (validateCode c) = true)
                   (BUILTIN_SKILLS w)) as Hcat.
    { pose proof catalogue_codes_valid as H0. revert H0.
      induction Hsame as [|d d0 l l0 (_ & _ & _ & Hc & _) _ IH]; intros H0;
        [constructor|].
      apply Forall_cons in H0 as [Hd0 H0]. constructor; [|by apply IH].
      intros c Hcd. apply Hd0. by rewrite <- Hc. }
    pose proof (load_each_codes_valid _ 0%nat w Hcat Hv) as Hl.
    destruct (load_each (BUILTIN_SKILLS w) 0 w) as [[defs n] w']. done.
Qed.

Lemma sample_codes_valid : codes_valid sample_files.
Proof.
  assert (map_Forall
            (fun _ s => ∀ c, M365Skill.code s = Some c →
                             valid (validateCode c) = true)
            sample_files) as H.
  { unfold sample_files.
    each_file ltac:(intros c [= <-]; vm_compute; reflexivity). }
  intros k s c Hk. exact (H k s Hk c).
Qed.

Lemma tools_keep_code_valid_witness :
  codes_valid (files sample_world)
  ∧ codes_valid (files (update_m365_skill "id-c" new_code sample_world).2)
  ∧ codes_valid (files (delete_m365_skill "id-a" sample_world).2).
Proof.
  split; [exact sample_codes_valid|].
  destruct (tools_keep_code_valid sample_world sample_codes_valid)
    as (_ & Hupdate & Hdelete & _).
  split; [exact (Hupdate "id-c" new_code) | exact (Hdelete "id-a")].
Defined.

(** ** What [loadBuiltinSkills] writes *)

Lemma load_each_adds defs :
  ∀ n w,
    Forall (fun d => complete d ∧ M365Skill.isBuiltin d = Some true) defs →
    fresh_keys defs w →
    ∃ defs' n' w',
      load_each defs n w = (defs', n', w')
      ∧ (∀ k s, files w !! k = Some s → files w' !! k = Some s)
      ∧ (∀ k s, files w' !! k = Some s →
                files w !! k = Some s
                ∨ (files w !! k = None
                   ∧ ∃ d nm, d ∈ defs ∧ written_from s d
                             ∧ M365Skill.name d = Some nm
                             ∧ ¬ named nm (files w)))
      ∧ (n ≤ n')%nat
      ∧ size (files w') = (size (files w) + (n' - n))%nat.
Proof.
  induction defs as [|d rest IH]; intros n w Hdefs Hfresh.
  { exists [], n, w. split_and!; [done | done | by left | done |].
    rewrite Nat.sub_diag. lia. }
  apply Forall_cons in Hdefs as [[Hd Hb] Hrest].
  destruct (complete_name d Hd) as (nm & Hnm & Htruthy).
  cbn [load_each]. rewrite Hnm, Htruthy.
  destruct (SkillStorage.getByName nm w) as [found|] eqn:Hfound.
  - destruct (IH n w Hrest (fresh_keys_skip _ _ _ Hfresh))
      as (defs' & n' & w' & -> & Hkeep & Hnew & Hle & Hsize).
    exists (d :: defs'), n', w'. split_and!; [done | done | | done | done].
    intros k s Hk. destruct (Hnew k s Hk) as [? | (? & d' & nm' & ? & ?)];
      [by left|]. right. split; [done|]. exists d', nm'.
    split; [by apply list_elem_of_further | done].
  - assert (¬ named nm (files w)) as Habsent.
    { intros Hn. apply getByName_named in Hn as [? Hn]. congruence. }
    assert (∀ w1 key s',
              files w !! key = None →
              files w1 = <[key := s']> (files w) →
              written_from s' d →
              fresh_keys rest w1 →
              ∃ defs' n' w',
                load_each rest (S n) w1 = (defs', n', w')
                ∧ (∀ k s, files w !! k = Some s → files w' !! k = Some s)
                ∧ (∀ k s, files w' !! k = Some s →
                          files w !! k = Some s
                          ∨ (files w !! k = None
                             ∧ ∃ d0 nm0, d0 ∈ d :: rest ∧ written_from s d0
                                         ∧ M365Skill.name d0 = Some nm0
                                         ∧ ¬ named nm0 (files w)))
                ∧ (n ≤ n')%nat
                ∧ size (files w') = (size (files w) + (n' - n))%nat) as Hstep.
    { intros w1 key s' Hnone Hfiles Hfrom Hfresh1.
      destruct (IH (S n) w1 Hrest Hfresh1)
        as (defs' & n' & w' & Hl & Hkeep & Hnew & Hle & Hsize).
      exists defs', n', w'. split_and!; [done | | | lia |].
      - intros k s Hk. apply Hkeep. rewrite Hfiles.
        rewrite lookup_insert_ne; [done|]. intros <-. congruence.
      - intros k s Hk. destruct (Hnew k s Hk)
          as [Hold | (Hnone1 & d0 & nm0 & Hin & Hw & Hn0 & Habs0)].
        + rewrite Hfiles in Hold.
          apply lookup_insert_Some in Hold as [[<- <-] | [_ Hold]];
            [|by left].
          right. split; [done|]. exists d, nm.
          split_and!; [apply list_elem_of_here | done | done | done].
        + right. rewrite Hfiles in Hnone1.
          apply lookup_insert_None in Hnone1 as [Hnone1 _].
          split; [done|]. exists d0, nm0.
          split_and!; [by apply list_elem_of_further | done | done |].
          intros Hn. apply Habs0. rewrite Hfiles.
          by apply named_insert_fresh.
      - rewrite Hsize, Hfiles, map_size_insert_None by done. lia. }
    destruct (truthy (M365Skill.id d)) eqn:Hid.
    + destruct (M365Skill.id d) as [k0|] eqn:Hk0; [|done].
      assert (own_id d = Some k0) as Hown.
      { unfold own_id. by rewrite Hk0, Hid. }
      rewrite (save_existing d w k0 Hk0 Hid Hd). cbv zeta.
      set (s' := M365Skill.set_updatedAt (Some (clock w (reads w))) d).
      destruct (fresh_keys_kept d rest w k0 (M365Skill.json s') (clock w)
                  (S (reads w)) (BUILTIN_SKILLS w) Hown Hfresh)
        as [Hnone Hfresh'].
      match goal with
      | |- context [load_each rest (S n) ?w1] =>
          destruct (Hstep w1 k0 (M365Skill.json s') Hnone eq_refl) as
            (defs' & n' & w' & -> & Hrest'); [|done|]
      end.
      * unfold written_from, s'. destruct d; simpl in *. rewrite Hb.
        by split_and!.
      * by exists (s' :: defs'), n', w'.
    + assert (own_id d = None) as Hown.
      { unfold own_id. by rewrite Hid. }
      rewrite (save_new d w Hid Hd).
      set (s' := created d w).
      destruct (fresh_keys_drawn d rest w s' (clock w) (S (S (reads w)))
                  (BUILTIN_SKILLS w) Hown Hfresh) as [Hnone Hfresh'].
      match goal with
      | |- context [load_each rest (S n) ?w1] =>
          destruct (Hstep w1 _ s' Hnone eq_refl) as
            (defs' & n' & w' & -> & Hrest'); [|done|]
      end.
      * unfold written_from, s', created. simpl. by split_and!.
      * by exists (s' :: defs'), n', w'.
Qed.

Lemma catalogue_builtin :
  Forall (fun d => M365Skill.isBuiltin d = Some true) builtin_catalogue.
Proof.
  unfold builtin_catalogue.
  repeat (apply Forall_cons; split; [reflexivity|]). apply Forall_nil_2.
Qed.

Lemma same_definitions_builtin l l0 :
  Forall2 same_definition l l0 →
  Forall complete l0 →
  Forall (fun d => M365Skill.isBuiltin d = Some true) l0 →
  Forall (fun d => complete d ∧ M365Skill.isBuiltin d = Some true) l.
Proof.
  induction 1 as [|d d0 l l0 Hd _ IH]; intros Hc0 Hb0; [constructor|].
  apply Forall_cons in Hc0 as [Hd0 Hc0]. apply Forall_cons in Hb0 as [Hb Hb0].
  constructor; [|by apply IH]. split.
  - by eapply same_definition_complete.
  - destruct Hd as (_ & _ & _ & _ & _ & _ & ->). done.
Qed.

(** X15. With the catalogue of the source and identifiers that are new,
    [loadBuiltinSkills] leaves every stored record as it is and adds
    as many files as it reports; each added record is a built-in skill
    written from a catalogue entry whose name no stored record had. *)
Theorem loadBuiltinSkills_only_adds (w : World) :
  Forall2 same_definition (BUILTIN_SKILLS w) builtin_catalogue →
  fresh_keys (BUILTIN_SKILLS w) w →
  ∃ n1 w1,
    loadBuiltinSkills w = (n1, w1)
    ∧ (∀ k s, files w !! k = Some s → files w1 !! k = Some s)
    ∧ (∀ k s, files w1 !! k = Some s →
              files w !! k = Some s
              ∨ (files w !! k = None
                 ∧ M365Skill.isBuiltin s = Some true
                 ∧ ∃ d nm, d ∈ builtin_catalogue ∧ written_from s d
                           ∧ M365Skill.name d = Some nm
                           ∧ ¬ named nm (files w)))
    ∧ size (files w1) = (size (files w) + n1)%nat.
Proof.
  intros Hsame Hfresh.
  assert (Forall (fun d => complete d ∧ M365Skill.isBuiltin d = Some true)
                 (BUILTIN_SKILLS w)) as Hdefs.
  { eapply same_definitions_builtin;
      [exact Hsame | exact catalogue_complete | exact catalogue_builtin]. }
  destruct (load_each_adds (BUILTIN_SKILLS w) 0%nat w Hdefs Hfresh)
    as (defs' & n1 & w' & Hl & Hkeep & Hnew & _ & Hsize).
  exists n1, (set_BUILTIN_SKILLS defs' w'). unfold loadBuiltinSkills.
  rewrite Hl. cbn [set_BUILTIN_SKILLS files]. split_and!; [done | done | |].
  - intros k s Hk. destruct (Hnew k s Hk)
      as [? | (Hnone & d & nm & Hin & Hw & Hn & Habs)]; [by left|].
    right. split; [done|].
    destruct (proj1 (list_elem_of_lookup _ _) Hin) as [i Hi].
    destruct (Forall2_lookup_l _ _ _ _ _ Hsame Hi) as (d0 & Hd0 & Hdd0).
    pose proof (proj1 (Forall_forall _ _) Hdefs d Hin) as [_ Hb].
    destruct Hw as (H1 & H2 & H3 & H4 & H5 & H6 & H7).
    destruct Hdd0 as (E1 & E2 & E3 & E4 & E5 & E6 & E7).
    split; [by rewrite H7, Hb|]. exists d0, nm. split_and!.
    + by eapply list_elem_of_lookup_2.
    + unfold written_from. rewrite H1, H2, H3, H4, H5, H6, H7, E7.
      by split_and!.
    + by rewrite <- E1.
    + done.
  - rewrite Hsize. lia.
Qed.

(** The first start, on an empty directory. *)
Lemma loadBuiltinSkills_only_adds_witness :
  Forall2 same_definition (BUILTIN_SKILLS fresh_world) builtin_catalogue
  ∧ fresh_keys (BUILTIN_SKILLS fresh_world) fresh_world
  ∧ ∃ n1 w1,
      loadBuiltinSkills fresh_world = (n1, w1)
      ∧ size (files w1) = (size (files fresh_world) + n1)%nat.
Proof.
  split; [exact catalogue_same|]. split; [exact fresh_world_keys|].
  destruct (loadBuiltinSkills_only_adds fresh_world catalogue_same
              fresh_world_keys) as (n1 & w1 & H1 & _ & _ & Hsize).
  exists n1, w1. split; [exact H1 | exact Hsize].
Defined.

(** ** The handlers that write: [create-m365-skill] and [update-m365-skill] *)

Lemma getByName_absent name w :
  ¬ named name (files w) → SkillStorage.getByName name w = None.
Proof.
  intros Hn. destruct (SkillStorage.getByName name w) eqn:Hg; [|done].
  destruct Hn. apply getByName_named. by eexists.
Qed.

Lemma unique_names_insert k s m :
  (∀ n, M365Skill.name s = Some n → ¬ named n (base.delete k m)) →
  unique_names m → unique_names (<[k := s]> m).
Proof.
  intros Hs Hu k1 k2 s1 s2 n H1 H2 Hn1 Hn2.
  apply lookup_insert_Some in H1 as [[<- <-] | [Hk1 H1]];
    apply lookup_insert_Some in H2 as [[<- <-] | [Hk2 H2]].
  - done.
  - destruct (Hs n Hn1). exists k2, s2. split; [|done].
    by rewrite lookup_delete_ne.
  - destruct (Hs n Hn2). exists k1, s1. split; [|done].
    by rewrite lookup_delete_ne.
  - by eapply Hu.
Qed.

(** X16. The handler of [create-m365-skill] writes nothing when the
    code fails the validator (it answers with the validator's errors)
    or when a stored record has the name; for a new name, with name,
    description and code not empty, it stores one record under a drawn
    identifier, with [usageCount] 0, and answers with its fields; with
    one of the three empty it answers with the error of [save] and
    writes nothing. In each case a directory in which no two records
    have the same name stays such. *)
Theorem create_m365_skill_outcomes
    (name description : string) (category : Category) (code : string)
    (parameters : option (list (string * SkillParameter.t)))
    (tags : option (list string)) (isPublic : option bool) (w : World) :
  (valid (validateCode code) = false →
   create_m365_skill name description category code parameters tags isPublic w
   = (CreateInvalid (errors (validateCode code)), w))
  ∧ (valid (validateCode code) = true →
     named name (files w) →
     create_m365_skill name description category code parameters tags
                       isPublic w
     = (CreateError (already_exists name), w))
  ∧ (valid (validateCode code) = true →
     ¬ named name (files w) →
     name ≠ "" → description ≠ "" → code ≠ "" →
     ∃ w',
       create_m365_skill name description category code parameters tags
                         isPublic w
       = (Created (Some (uuid_text (entropy w (draws w)))) (Some name)
            (Some description) (Some category) tags
            (Some (clock w (reads w))), w')
       ∧ files w'
         = <[uuid_text (entropy w (draws w)) :=
               created (new_skill name description category code parameters
                          tags isPublic) w]> (files w))
  ∧ (valid (validateCode code) = true →
     ¬ named name (files w) →
     name = "" ∨ description = "" ∨ code = "" →
     ∃ w',
       create_m365_skill name description category code parameters tags
                         isPublic w
       = (CreateError SkillStorage.missing_fields, w')
       ∧ files w' = files w)
  ∧ (unique_names (files w) →
     unique_names
       (files (create_m365_skill name description category code parameters
                 tags isPublic w).2)).
Proof.
  split_and!.
  - intros Hv. unfold create_m365_skill. by rewrite Hv.
  - intros Hv Hn. unfold create_m365_skill. rewrite Hv. cbn [negb].
    apply getByName_named in Hn as [s ->]. done.
  - intros Hv Hn Hname Hdesc Hcode. unfold create_m365_skill.
    rewrite Hv, (getByName_absent _ _ Hn). cbn [negb].
    rewrite save_new; [|done|].
    + eexists. split; reflexivity.
    + unfold complete, new_skill.
      cbn [M365Skill.name M365Skill.description M365Skill.code
           M365Skill.category].
      rewrite !truthy_nonempty. by split_and!.
  - intros Hv Hn Hempty. unfold create_m365_skill.
    rewrite Hv, (getByName_absent _ _ Hn). cbn [negb].
    destruct (save_incomplete
                (new_skill name description category code parameters tags
                   isPublic) w) as (s' & w' & -> & Hf & _).
    + unfold complete, new_skill.
      cbn [M365Skill.name M365Skill.description M365Skill.code
           M365Skill.category].
      rewrite !truthy_nonempty. intros (? & ? & ? & _).
      destruct Hempty as [? | [? | ?]]; done.
    + by exists w'.
  - intros Hu. unfold create_m365_skill.
    destruct (valid (validateCode code)); [|done]. cbn [negb].
    destruct (SkillStorage.getByName name w) eqn:Hg; [done|].
    assert (¬ named name (files w)) as Hn.
    { intros Hn. apply getByName_named in Hn as [? Hn]. congruence. }
    destruct (complete_or_not
                (new_skill name description category code parameters tags
                   isPublic)) as [Hc | Hc].
    + rewrite save_new; [|done|done]. cbn [snd files].
      apply unique_names_insert; [|done].
      intros n [= <-] (k & s & Hk & Hs). apply Hn. exists k, s.
      apply lookup_delete_Some in Hk as [_ Hk]. done.
    + destruct (save_incomplete _ w Hc) as (s' & w' & -> & Hf & _).
      cbn [snd]. by rewrite Hf.
Qed.

Lemma create_m365_skill_outcomes_witness :
  valid (validateCode "return await m365.mail.list({ top: 5 });") = true
  ∧ ¬ named "inbox" (files sample_world)
  ∧ ∃ w',
      create_m365_skill "inbox" "Lists the inbox" mail
        "return await m365.mail.list({ top: 5 });" None (Some ["mail"]) None
        sample_world
      = (Created (Some (uuid_text (entropy sample_world (draws sample_world))))
           (Some "inbox") (Some "Lists the inbox") (Some mail) (Some ["mail"])
           (Some (clock sample_world (reads sample_world))), w')
      ∧ files w'
        = <[uuid_text (entropy sample_world (draws sample_world)) :=
              created (new_skill "inbox" "Lists the inbox" mail
                         "return await m365.mail.list({ top: 5 });" None
                         (Some ["mail"]) None) sample_world]>
            (files sample_world).
Proof.
  assert (valid (validateCode "return await m365.mail.list({ top: 5 });")
          = true) as Hv by (vm_compute; reflexivity).
  assert (¬ named "inbox" (files sample_world)) as Hn.
  { intros Hn. apply getByName_named in Hn as [s Hs].
    vm_compute in Hs. discriminate Hs. }
  split; [exact Hv|]. split; [exact Hn|].
  destruct (create_m365_skill_outcomes "inbox" "Lists the inbox" mail
              "return await m365.mail.list({ top: 5 });" None (Some ["mail"])
              None sample_world) as (_ & _ & Hcreate & _).
  apply Hcreate; [exact Hv | exact Hn | discriminate..].
Defined.

Example create_m365_skill_sample :
  (create_m365_skill "agenda" "Another agenda" calendar "return 1;" None None
                     None sample_world).1
  = CreateError
      "Skill with name 'agenda' already exists. Use update-m365-skill to modify it."
  ∧ (create_m365_skill "bad" "Runs a shell" general
                       "require('child_process')" None None None
                       sample_world).1
    = CreateInvalid ["Forbidden pattern detected: require(";
                     "Forbidden pattern detected: child_process"]
  ∧ (create_m365_skill "inbox" "Lists the inbox" mail
                       "return await m365.mail.list({ top: 5 });" None
                       (Some ["mail"]) None sample_world).1
    = Created (Some "00000000-0000-4000-8001-000000000000") (Some "inbox")
        (Some "Lists the inbox") (Some mail) (Some ["mail"])
        (Some 1762041600000).
Proof. split_and!; vm_compute; reflexivity. Qed.

(** X17. The handler of [update-m365-skill] answers with an error and
    writes nothing for an unknown identifier, and with the validator's
    errors when the new code is not empty and fails the validator.
    Otherwise the stored record is written with the given fields
    replaced and [updatedAt] set to the time of the call, its
    identifier, [createdAt], [usageCount] and [isBuiltin] kept, and the
    other files untouched; when the replaced record lacks a required
    field (an empty name, description or code) the answer is the error
    of [save] and nothing is written. *)
Theorem update_m365_skill_outcomes
    (skillId : string) (updates : SkillUpdates) (w : World) :
  (SkillStorage.get skillId w = None →
   update_m365_skill skillId updates w
   = (UpdateError ("Skill not found: " +:+ skillId), w))
  ∧ (∀ skill c,
       SkillStorage.get skillId w = Some skill →
       SkillUpdates.code updates = Some c → c ≠ "" →
       valid (validateCode c) = false →
       update_m365_skill skillId updates w
       = (UpdateInvalid (errors (validateCode c)), w))
  ∧ (∀ skill,
       SkillStorage.get skillId w = Some skill →
       stored_ok skillId skill →
       (∀ c, SkillUpdates.code updates = Some c →
             valid (validateCode c) = true) →
       complete (Object_assign skill updates) →
       ∃ w' skill',
         update_m365_skill skillId updates w
         = (Updated (Some skillId) (M365Skill.name skill')
              (M365Skill.description skill') (M365Skill.category skill')
              (Some (clock w (reads w))), w')
         ∧ SkillStorage.get skillId w' = Some skill'
         ∧ skill'
           = M365Skill.json
               (M365Skill.set_updatedAt (Some (clock w (reads w)))
                  (Object_assign skill updates))
         ∧ M365Skill.createdAt skill' = M365Skill.createdAt skill
         ∧ M365Skill.usageCount skill'
           = json_number (M365Skill.usageCount skill)
         ∧ M365Skill.isBuiltin skill' = M365Skill.isBuiltin skill
         ∧ (∀ other, other ≠ skillId →
                     SkillStorage.get other w' = SkillStorage.get other w))
  ∧ (∀ skill,
       SkillStorage.get skillId w = Some skill →
       (∀ c, SkillUpdates.code updates = Some c →
             valid (validateCode c) = true) →
       ¬ complete (Object_assign skill updates) →
       ∃ w',
         update_m365_skill skillId updates w
         = (UpdateError SkillStorage.missing_fields, w')
         ∧ files w' = files w).
Proof.
  split_and!.
  - intros Hg. unfold update_m365_skill. by rewrite Hg.
  - intros skill c Hg Hc Hne Hv. unfold update_m365_skill. rewrite Hg, Hc.
    change (default "" (Some c)) with c. rewrite Hv.
    apply truthy_nonempty in Hne. by rewrite Hne.
  - intros skill Hg (Hid & Hk & _) Hv Hc. unfold update_m365_skill.
    rewrite Hg.
    assert (truthy (SkillUpdates.code updates)
            && negb (valid (validateCode
                              (default "" (SkillUpdates.code updates))))
            = false) as ->.
    { destruct (SkillUpdates.code updates) as [c|]; [|done].
      change (default "" (Some c)) with c. rewrite (Hv c eq_refl).
      apply andb_false_r. }
    rewrite (save_existing _ w skillId); [| |by rewrite <- Hid|done].
    + cbv zeta.
      exists (mkWorld
                (<[skillId :=
                     M365Skill.json
                       (M365Skill.set_updatedAt (Some (clock w (reads w)))
                          (Object_assign skill updates))]> (files w))
                (clock w) (S (reads w)) (entropy w) (draws w)
                (BUILTIN_SKILLS w)).
      exists (M365Skill.json
                (M365Skill.set_updatedAt (Some (clock w (reads w)))
                   (Object_assign skill updates))).
      split; [destruct skill; simpl in *; by subst|].
      unfold SkillStorage.get. cbn [files]. rewrite lookup_insert_eq.
      split; [reflexivity|]. split; [reflexivity|].
      split_and!; try by destruct skill.
      intros other Hne. by apply lookup_insert_ne.
    + by destruct skill.
  - intros skill Hg Hv Hc. unfold update_m365_skill. rewrite Hg.
    assert (truthy (SkillUpdates.code updates)
            && negb (valid (validateCode
                              (default "" (SkillUpdates.code updates))))
            = false) as ->.
    { destruct (SkillUpdates.code updates) as [c|]; [|done].
      change (default "" (Some c)) with c. rewrite (Hv c eq_refl).
      apply andb_false_r. }
    destruct (save_incomplete _ w Hc) as (s' & w' & -> & Hf & _).
    by exists w'.
Qed.

Lemma update_m365_skill_outcomes_witness :
  SkillStorage.get "id-c" sample_world = Some agenda
  ∧ stored_ok "id-c" agenda
  ∧ complete (Object_assign agenda new_code)
  ∧ ∃ w' skill',
      (update_m365_skill "id-c" new_code sample_world).2 = w'
      ∧ SkillStorage.get "id-c" w' = Some skill'
      ∧ M365Skill.code skill' = Some "return 2;"
      ∧ M365Skill.usageCount skill' = Num 5.
Proof.
  assert (stored_ok "id-c" agenda) as Hok by (repeat split; eauto).
  assert (complete (Object_assign agenda new_code)) as Hc
    by (repeat split; eauto).
  assert (∀ c, SkillUpdates.code new_code = Some c →
               valid (validateCode c) = true) as Hv.
  { intros c [= <-]. vm_compute. reflexivity. }
  split; [reflexivity|]. split; [exact Hok|]. split; [exact Hc|].
  destruct (update_m365_skill_outcomes "id-c" new_code sample_world)
    as (_ & _ & Hupdate & _).
  destruct (Hupdate agenda eq_refl Hok Hv Hc)
    as (w' & skill' & Hu & Hg & Hs & _ & Hn & _).
  exists w', skill'. split; [by rewrite Hu|]. split; [exact Hg|].
  split; [by rewrite Hs | exact Hn].
Defined.

(** The handler of [update-m365-skill] changes the code of a built-in
    skill, which the handler of [delete-m365-skill] refuses to remove,
    and gives a skill the name of another one, which the handler of
    [create-m365-skill] refuses. *)
Example update_m365_skill_unguarded :
  M365Skill.isBuiltin agenda = Some true
  ∧ (update_m365_skill "id-c" new_code sample_world).1
    = Updated (Some "id-c") (Some "agenda") (Some "A stored skill")
        (Some calendar) (Some 1762041600000)
  ∧ M365Skill.code
      <$> SkillStorage.get "id-c"
            (update_m365_skill "id-c" new_code sample_world).2
    = Some (Some "return 2;")
  ∧ (update_m365_skill "id-c" take_name sample_world).1
    = Updated (Some "id-c") (Some "report") (Some "A stored skill")
        (Some calendar) (Some 1762041600000)
  ∧ M365Skill.name
      <$> SkillStorage.get "id-a"
            (update_m365_skill "id-c" take_name sample_world).2
    = Some (Some "report").
Proof. split_and!; vm_compute; reflexivity. Qed.

(** ** The budget of a run *)

(** X18. The handler of [execute-m365-code] runs the script under a
    budget of at most 60000 milliseconds: 30000 when no time-out is
    given (or 0), the smaller of the given time-out and 60000 when it
    is positive. Its answer is the printed value with the time of the
    answer, or what its [catch] block makes of the thrown value or of
    a value that cannot be printed; it writes no file. *)
Theorem execute_m365_code_caps_budget
    (runInContext : string → Z → Outcome) (code : string)
    (timeout : option Z) (w : World) :
  ∃ budget,
    budget = or_default (Some (Z.min (default 30000 timeout) 60000))
    ∧ budget ≤ 60000
    ∧ (timeout = None → budget = 30000)
    ∧ (∀ t, timeout = Some t → 0 < t → budget = Z.min t 60000)
    ∧ (execute_m365_code runInContext code timeout w).1
      = match runInContext (wrap_async code) budget with
        | Returned (Prints json) =>
            CodeSuccess json (clock w (S (S (reads w))))
        | Returned (PrintThrows error) => code_caught error
        | Threw error => code_caught error
        end
    ∧ files (execute_m365_code runInContext code timeout w).2 = files w.
Proof.
  eexists. split; [reflexivity|]. split_and!.
  - unfold or_default. destruct timeout as [t|]; simpl; [|lia].
    destruct (Z.min t 60000) eqn:Hm; simpl; lia.
  - by intros ->.
  - intros t -> Ht. unfold or_default. simpl.
    destruct (Z.min t 60000) eqn:Hm; simpl; lia.
  - unfold execute_m365_code, executeM365Code. cbn [Date_now].
    destruct (runInContext _ _) as [[json|error]|error]; reflexivity.
  - unfold execute_m365_code, executeM365Code. cbn [Date_now].
    destruct (runInContext _ _) as [[json|error]|error]; reflexivity.
Qed.

(** The handler of [execute-m365-skill] passes the budget it is given:
    a run of two minutes ends with the time-out under
    [execute-m365-code] and returns under [execute-m365-skill]. *)
Example execute_m365_skill_budget_not_capped :
  (execute_m365_code two_minutes "return 1;" (Some 120000) sample_world).1
  = CodeFailed (AnError "Execution timeout")
  ∧ (execute_m365_skill two_minutes "agenda" None (Some 120000)
                        sample_world).1
    = Executed (Some "agenda") (Some "id-c") (Num 6) 3 (Some "1").
Proof. split; vm_compute; reflexivity. Qed.

(** ** Invariants of the store *)

(** X19. Below 2^53 the increments add up: after [m] calls on a stored
    record whose [usageCount] is the whole number [n], with [n] at
    least -2^53 and [n + m] at most 2^53, a [get] sees [n + m]. *)
Theorem incrementUsage_adds_up (m : nat) (id : string) (w : World)
    (s : M365Skill) (n : Z) :
  SkillStorage.get id w = Some s →
  stored_ok id s →
  M365Skill.usageCount s = Num n →
  - 2 ^ 53 ≤ n →
  n + Z.of_nat m ≤ 2 ^ 53 →
  ∃ s',
    SkillStorage.get id
      (Nat.iter m (fun w => (SkillStorage.incrementUsage id w).2) w) = Some s'
    ∧ stored_ok id s'
    ∧ M365Skill.usageCount s' = Num (n + Z.of_nat m).
Proof.
  intros Hg Hok Hu Hlo. induction m as [|m IH]; intros Hhi.
  - exists s. rewrite Z.add_0_r. by split_and!.
  - destruct IH as (s' & Hg' & Hok' & Hu'); [lia|].
    rewrite Nat.iter_succ. set (w' := Nat.iter m _ w) in *.
    rewrite (incrementUsage_stored id w' s' _ Hg' Hok' Hu'); [|lia].
    cbn [snd].
    eexists. unfold SkillStorage.get. cbn [files].
    split; [apply lookup_insert_eq|]. destruct s'; simpl in *. split.
    + destruct Hok' as (? & ? & ? & ? & ? & ?). by repeat split.
    + f_equal. lia.
Qed.

(** Three uses of [agenda]. *)
Lemma incrementUsage_adds_up_witness :
  SkillStorage.get "id-c" sample_world = Some agenda
  ∧ stored_ok "id-c" agenda
  ∧ M365Skill.usageCount agenda = Num 5
  ∧ - 2 ^ 53 ≤ 5
  ∧ 5 + Z.of_nat 3 ≤ 2 ^ 53
  ∧ ∃ s',
      SkillStorage.get "id-c"
        (Nat.iter 3 (fun w => (SkillStorage.incrementUsage "id-c" w).2)
                  sample_world) = Some s'
      ∧ M365Skill.usageCount s' = Num (5 + Z.of_nat 3).
Proof.
  assert (stored_ok "id-c" agenda) as Hok by (repeat split; eauto).
  assert (- 2 ^ 53 ≤ 5) as Hlo by lia.
  assert (5 + Z.of_nat 3 ≤ 2 ^ 53) as Hhi by lia.
  split; [reflexivity|]. split; [exact Hok|]. split; [reflexivity|].
  split; [exact Hlo|]. split; [exact Hhi|].
  destruct (incrementUsage_adds_up 3 "id-c" sample_world agenda 5 eq_refl Hok
              eq_refl Hlo Hhi) as (s' & Hg & _ & Hu).
  exists s'. split; [exact Hg | exact Hu].
Defined.

(** X20. The records of the store stay well formed: if every file holds
    a record with the identifier the file is named after and the four
    required fields, so it does after [save], [delete],
    [incrementUsage], [loadBuiltinSkills] and after each of the four
    handlers that write. The empty directory is such a store. *)
Theorem store_stays_well_formed (w : World) :
  store_ok (files w) →
  (∀ skill, store_ok (files (SkillStorage.save skill w).2))
  ∧ (∀ id, store_ok (files (SkillStorage.delete id w).2))
  ∧ (∀ id, store_ok (files (SkillStorage.incrementUsage id w).2))
  ∧ store_ok (files (loadBuiltinSkills w).2)
  ∧ (∀ name description category code parameters tags isPublic,
       store_ok
         (files (create_m365_skill name description category code parameters
                   tags isPublic w).2))
  ∧ (∀ skillId updates,
       store_ok (files (update_m365_skill skillId updates w).2))
  ∧ (∀ skillId, store_ok (files (delete_m365_skill skillId w).2))
  ∧ (∀ runInContext skillId skillParams timeout,
       store_ok
         (files (execute_m365_skill runInContext skillId skillParams timeout
                   w).2)).
Proof.
  intros Hok. split_and!.
  - intros skill. by apply save_store_ok.
  - intros id. by apply delete_store_ok.
  - intros id. by apply incrementUsage_store_ok.
  - by apply loadBuiltinSkills_store_ok.
  - intros name description category code parameters tags isPublic.
    unfold create_m365_skill.
    destruct (valid (validateCode code)); [|done]. cbn [negb].
    destruct (SkillStorage.getByName name w); [done|].
    pose proof (save_store_ok
                  (new_skill name description category code parameters tags
                     isPublic) w Hok) as Hs.
    destruct (SkillStorage.save _ w) as [[s' r] w'].
    by destruct r as [?|[?]].
  - intros skillId updates. unfold update_m365_skill.
    destruct (SkillStorage.get skillId w) as [skill|]; [|done].
    destruct (truthy (SkillUpdates.code updates) && _); [done|].
    pose proof (save_store_ok (Object_assign skill updates) w Hok) as Hs.
    destruct (SkillStorage.save _ w) as [[s' r] w'].
    by destruct r as [?|[?]].
  - intros skillId. unfold delete_m365_skill.
    destruct (match SkillStorage.get skillId w with
              | Some skill => bool_decide (M365Skill.isBuiltin skill = Some true)
              | None => false
              end); [done|].
    pose proof (delete_store_ok skillId w Hok) as Hd.
    destruct (SkillStorage.delete skillId w) as [[] w']; done.
  - intros run skillId skillParams timeout. unfold execute_m365_skill.
    destruct (match SkillStorage.get skillId w with
              | Some skill => Some skill
              | None => SkillStorage.getByName skillId w
              end) as [skill|]; [|done].
    unfold executeM365Code. cbn [Date_now].
    destruct (run _ _) as [v|thrown]; [|done].
    cbn [Date_now reads clock files entropy draws BUILTIN_SKILLS].
    match goal with
    | |- context [SkillStorage.incrementUsage ?key ?world] =>
        pose proof (incrementUsage_store_ok key world Hok) as Hi;
        destruct (SkillStorage.incrementUsage key world) as [[?|[?]] w']
    end; by destruct v.
Qed.

Lemma store_stays_well_formed_witness :
  store_ok (files fresh_world)
  ∧ store_ok (files (SkillStorage.save testSkill fresh_world).2)
  ∧ store_ok (files (loadBuiltinSkills fresh_world).2).
Proof.
  assert (store_ok (files fresh_world)) as Hok by exact store_ok_empty.
  split; [exact Hok|].
  destruct (store_stays_well_formed fresh_world Hok)
    as (Hsave & _ & _ & Hload & _).
  split; [exact (Hsave testSkill) | exact Hload].
Defined.

Lemma load_each_counted defs n w :
  Forall (fun d => truthy (M365Skill.id d) = false ∨ numeric d) defs →
  counted (files w) →
  counted (files (load_each defs n w).2).
Proof.
  revert n w. induction defs as [|d rest IH]; intros n w Hd Hc; [done|].
  apply Forall_cons in Hd as [Hd Hrest]. cbn [load_each].
  destruct (match M365Skill.name d with
            | Some name =>
                if truthy (Some name) then SkillStorage.getByName name w
                else None
            | None => None
            end).
  - specialize (IH n w Hrest Hc). destruct (load_each rest n w) as [[? ?] ?].
    done.
  - pose proof (save_counted d w Hc Hd) as Hs.
    destruct (SkillStorage.save d w) as [[d' r] w'].
    specialize (IH (match r with Ok _ => S n | Throw _ => n end) w' Hrest Hs).
    destruct (load_each rest _ w') as [[? ?] ?]. done.
Qed.

(** X21. The handlers keep the counters numeric: in a well-formed store
    in which every [usageCount] is a number, so it is after each of
    the handlers [create-m365-skill], [update-m365-skill],
    [delete-m365-skill] and [execute-m365-skill], and after
    [loadBuiltinSkills] when each catalogue object has no identifier
    yet or a number as its [usageCount]. *)
Theorem tools_keep_counters_numeric (w : World) :
  store_ok (files w) →
  counted (files w) →
  (∀ name description category code parameters tags isPublic,
     counted
       (files (create_m365_skill name description category code parameters
                 tags isPublic w).2))
  ∧ (∀ skillId updates,
       counted (files (update_m365_skill skillId updates w).2))
  ∧ (∀ skillId, counted (files (delete_m365_skill skillId w).2))
  ∧ (∀ runInContext skillId skillParams timeout,
       counted
         (files (execute_m365_skill runInContext skillId skillParams timeout
                   w).2))
  ∧ (Forall (fun d => truthy (M365Skill.id d) = false ∨ numeric d)
            (BUILTIN_SKILLS w) →
     counted (files (loadBuiltinSkills w).2)).
Proof.
  intros Hok Hc. split_and!.
  - intros name description category code parameters tags isPublic.
    unfold create_m365_skill.
    destruct (valid (validateCode code)); [|done]. cbn [negb].
    destruct (SkillStorage.getByName name w); [done|].
    pose proof (save_counted
                  (new_skill name description category code parameters tags
                     isPublic) w Hc (or_introl eq_refl)) as Hs.
    destruct (SkillStorage.save _ w) as [[s' r] w'].
    by destruct r as [?|[?]].
  - intros skillId updates. unfold update_m365_skill.
    destruct (SkillStorage.get skillId w) as [skill|] eqn:Hg; [|done].
    destruct (truthy (SkillUpdates.code updates) && _); [done|].
    assert (numeric (Object_assign skill updates)) as Hn.
    { destruct (Hc skillId skill Hg) as [n Hn]. by exists n. }
    pose proof (save_counted (Object_assign skill updates) w Hc
                  (or_intror Hn)) as Hs.
    destruct (SkillStorage.save _ w) as [[s' r] w'].
    by destruct r as [?|[?]].
  - intros skillId. unfold delete_m365_skill.
    destruct (match SkillStorage.get skillId w with
              | Some skill => bool_decide (M365Skill.isBuiltin skill = Some true)
              | None => false
              end); [done|].
    unfold SkillStorage.delete. destruct (files w !! skillId); [|done].
    cbn [negb snd files set_files]. intros k s Hk.
    apply lookup_delete_Some in Hk as [_ Hk]. by eapply Hc.
  - intros run skillId skillParams timeout. unfold execute_m365_skill.
    destruct (match SkillStorage.get skillId w with
              | Some skill => Some skill
              | None => SkillStorage.getByName skillId w
              end) as [skill|]; [|done].
    unfold executeM365Code. cbn [Date_now].
    destruct (run _ _) as [v|thrown]; [|done].
    cbn [Date_now reads clock files entropy draws BUILTIN_SKILLS].
    match goal with
    | |- context [SkillStorage.incrementUsage ?key ?world] =>
        pose proof (incrementUsage_counted key world Hok Hc) as Hi;
        destruct (SkillStorage.incrementUsage key world) as [[?|[?]] w']
    end; by destruct v.
  - intros Hdefs. unfold loadBuiltinSkills.
    pose proof (load_each_counted _ 0%nat w Hdefs Hc) as Hl.
    destruct (load_each (BUILTIN_SKILLS w) 0 w) as [[defs n] w']. done.
Qed.

Lemma tools_keep_counters_numeric_witness :
  store_ok (files sample_world)
  ∧ counted (files sample_world)
  ∧ counted (files (update_m365_skill "id-c" take_name sample_world).2)
  ∧ counted (files (execute_m365_skill two_minutes "agenda" None
                      (Some 120000) sample_world).2).
Proof.
  split; [exact sample_store_ok|]. split; [exact sample_counted|].
  destruct (tools_keep_counters_numeric sample_world sample_store_ok
              sample_counted) as (_ & Hupdate & _ & Hexecute & _).
  split; [exact (Hupdate "id-c" take_name)|].
  exact (Hexecute two_minutes "agenda" None (Some 120000)).
Defined.
